(** * API testing tool backend: proxy, history and collections

    A shallow embedding of [main.py] and [schemas.py] and the properties of
    the proxy / history / collection endpoints.

    Layout:
    - [Py]        the Python values the handlers manipulate (JSON values,
                  BSON datetimes and object identifiers) and the string
                  built-ins the code calls ([str.upper], [str], [isoformat],
                  [bytes.fromhex]);
    - [Schemas]   the pydantic models of [schemas.py], with their validation
                  and [model_dump];
    - [Mongo]     the part of the document store the handlers talk to
                  (collections of documents, [insert_one], [update_one] with
                  [$push]);
    - [Database]  the helper interface of [database.py] ([create_document],
                  [get_documents]);
    - [Main]      the handlers of [main.py] in a state-and-exception monad;
    - the theorems. *)

From Stdlib Require Import ZArith QArith String Ascii PrimFloat.
From stdpp Require Import base option list strings gmap pretty.

Set Warnings "-register-all".
Set Default Proof Using "Type".

Local Open Scope string_scope.
Local Open Scope Z_scope.

(* ===================================================================== *)
(** ** Python values *)
(* ===================================================================== *)

Module Py.

  (** A naive [datetime.datetime], as the BSON decoder produces them. *)
Record datetime := Datetime {
    year : N; month : N; day : N;
    hour : N; minute : N; second : N; microsecond : N }.

  (** The bytes held by a [bson.ObjectId]. *)
Definition ObjectId := list N.

  (** Values that occur in request and response bodies and in stored
      documents.  A Python [dict] with string keys is a finite map. *)
Inductive pyval : Type :=
    | VNone
    | VBool (b : bool)
    | VInt (z : Z)
    | VFloat (f : PrimFloat.float)
    | VStr (s : string)
    | VList (l : list pyval)
    | VDict (d : gmap string pyval)
    | VDatetime (t : datetime)
    | VObjectId (o : ObjectId).

  (** Exceptions.  Every one of them is a subclass of [Exception]; each
      carries the text [str(e)] yields. *)
Inductive exn : Type :=
    | RequestException (msg : string)      (* requests: transport failure *)
    | ValidationError (msg : string)       (* pydantic *)
    | InvalidId (msg : string)             (* bson.errors.InvalidId *)
    | PyMongoError (msg : string)          (* pymongo: server or write error *)
    | ValueError (msg : string)            (* a body that is not JSON, a text
                                              that cannot be encoded *)
    | Exception (msg : string)             (* a plain [Exception] *)
    | HTTPException (status_code : Z) (detail : string).

Definition exn_str (e : exn) : string :=
    match e with
    | RequestException m | ValidationError m | InvalidId m
    | PyMongoError m | ValueError m | Exception m => m
    | HTTPException _ d => d
    end.

  (** *** [str.upper] on the ASCII range *)

Definition upper_ascii (c : ascii) : ascii :=
    let n := N_of_ascii c in
    if ((97 <=? n) && (n <=? 122))%N then ascii_of_N (n - 32) else c.

Fixpoint upper (s : string) : string :=
    match s with
    | EmptyString => EmptyString
    | String c r => String (upper_ascii c) (upper r)
    end.

  (** *** [bytes.fromhex] and [binascii.hexlify] *)

Definition is_space (c : ascii) : bool :=
    let n := N_of_ascii c in
    ((n =? 32) || ((9 <=? n) && (n <=? 13)))%N.

Definition hex_digit (c : ascii) : option N :=
    let n := N_of_ascii c in
    if ((48 <=? n) && (n <=? 57))%N then Some (n - 48)%N
    else if ((97 <=? n) && (n <=? 102))%N then Some (n - 87)%N
    else if ((65 <=? n) && (n <=? 70))%N then Some (n - 55)%N
    else None.

  (** Whitespace is skipped in front of a byte, never inside one. *)
Fixpoint fromhex (s : string) : option (list N) :=
    match s with
    | EmptyString => Some []
    | String c r =>
        if is_space c then fromhex r
        else match hex_digit c, r with
             | Some hi, String c' r' =>
                 match hex_digit c' with
                 | Some lo => cons (16 * hi + lo)%N <$> fromhex r'
                 | None => None
                 end
             | _, _ => None
             end
    end.

Definition hex_char (n : N) : ascii :=
    if (n <? 10)%N then ascii_of_N (48 + n) else ascii_of_N (87 + n).

Fixpoint hexlify (bs : list N) : string :=
    match bs with
    | [] => EmptyString
    | b :: r => String (hex_char (b / 16)) (String (hex_char (b mod 16)) (hexlify r))
    end.

  (** The interpreter's [repr]: the text of a float, a list or a dict
      under [str], and the quoted form of a string.  It is left to the
      runtime. *)
Class Runtime := { py_repr : pyval -> string }.

  (** The text of [InvalidId]: the [repr] of the argument and the
      library's explanation. *)
Definition invalid_id_text `{Runtime} (s : string) : string :=
    py_repr (VStr s)
    ++ " is not a valid ObjectId, it must be a 12-byte input or a 24-character hex string".

  (** [ObjectId(s)] for a [str] argument: 24 characters that [fromhex]
      accepts, [InvalidId] otherwise. *)
Definition ObjectId_of_str `{Runtime} (s : string) : exn + ObjectId :=
    if (String.length s =? 24)%nat then
      match fromhex s with
      | Some bs => inr bs
      | None => inl (InvalidId (invalid_id_text s))
      end
    else inl (InvalidId (invalid_id_text s)).

  (** *** [datetime.isoformat] *)

Fixpoint zeros (n : nat) : string :=
    match n with O => EmptyString | S k => String "0" (zeros k) end.

Definition zpad (w : nat) (n : N) : string :=
    let s := pretty n in zeros (w - String.length s) ++ s.

Definition isoformat_sep (sep : string) (t : datetime) : string :=
    zpad 4 (year t) ++ "-" ++ zpad 2 (month t) ++ "-" ++ zpad 2 (day t) ++ sep
    ++ zpad 2 (hour t) ++ ":" ++ zpad 2 (minute t) ++ ":" ++ zpad 2 (second t)
    ++ (if (microsecond t =? 0)%N then "" else "." ++ zpad 6 (microsecond t)).

Definition isoformat : datetime -> string := isoformat_sep "T".

  (** [hasattr(v, "isoformat")]: of the values above only a datetime has it. *)
Definition has_isoformat (v : pyval) : bool :=
    match v with VDatetime _ => true | _ => false end.

Definition call_isoformat (v : pyval) : pyval :=
    match v with VDatetime t => VStr (isoformat t) | _ => v end.

  (** *** [str] *)

  (** The text of a float, a list or a dict is the interpreter's [repr]. *)
Definition py_str `{Runtime} (v : pyval) : string :=
    match v with
    | VStr s => s
    | VObjectId o => hexlify o
    | VNone => "None"
    | VBool true => "True"
    | VBool false => "False"
    | VInt z => pretty z
    | VDatetime t => isoformat_sep " " t
    | VFloat _ | VList _ | VDict _ => py_repr v
    end.

  (** [int(x)] on a number: truncation toward zero. *)
Definition py_int (q : Q) : Z := Z.quot (Qnum q) (Z.pos (Qden q)).

End Py.

Export Py.

(* ===================================================================== *)
(** ** schemas.py *)
(* ===================================================================== *)

Module Schemas.

  (** [HttpMethod = Literal["GET", "POST", "PUT", "DELETE", "PATCH"]] *)
Inductive HttpMethod := GET | POST | PUT | DELETE | PATCH.

Definition HttpMethod_str (m : HttpMethod) : string :=
    match m with
    | GET => "GET" | POST => "POST" | PUT => "PUT"
    | DELETE => "DELETE" | PATCH => "PATCH"
    end.

  (** Validation of a string against the literal type. *)
Definition HttpMethod_validate (s : string) : option HttpMethod :=
    if String.eqb s "GET" then Some GET
    else if String.eqb s "POST" then Some POST
    else if String.eqb s "PUT" then Some PUT
    else if String.eqb s "DELETE" then Some DELETE
    else if String.eqb s "PATCH" then Some PATCH
    else None.

  (** [Union[Dict[str, Any], str]] *)
Inductive Body :=
    | BodyDict (d : gmap string pyval)
    | BodyStr (s : string).

Definition Body_dump (b : option Body) : pyval :=
    match b with
    | None => VNone
    | Some (BodyDict d) => VDict d
    | Some (BodyStr s) => VStr s
    end.

  (** Validation of an arbitrary value against
      [Optional[Union[Dict[str, Any], str]]]: [None], a dict and a string
      pass; a list, a number or a boolean is rejected. *)
Definition Body_validate (v : pyval) : option (option Body) :=
    match v with
    | VNone => Some None
    | VDict d => Some (Some (BodyDict d))
    | VStr s => Some (Some (BodyStr s))
    | _ => None
    end.

  (** [BaseModel]: what the store helpers need of a model. *)
Class BaseModel (A : Type) := { model_dump : A -> gmap string pyval }.

Definition dump_str_dict (m : gmap string string) : pyval := VDict (VStr <$> m).

Definition dump_opt {A} (f : A -> pyval) (o : option A) : pyval :=
    match o with Some a => f a | None => VNone end.

Module RequestConfig.
Record t := Make {
      url : string;
      method : HttpMethod;
      headers : gmap string string;
      params : gmap string string;
      body : option Body }.

    (** [RequestConfig(url=.., method=.., headers=.., params=.., body=..)]
        with the method given as a string. *)
Definition make (url method : string) (headers params : gmap string string)
        (body : option Body) : exn + t :=
      match HttpMethod_validate method with
      | Some m => inr (Make url m headers params body)
      | None => inl (ValidationError "1 validation error for RequestConfig")
      end.

Definition dump (r : t) : gmap string pyval :=
      <["url" := VStr (url r)]>
      (<["method" := VStr (HttpMethod_str (method r))]>
      (<["headers" := dump_str_dict (headers r)]>
      (<["params" := dump_str_dict (params r)]>
      (<["body" := Body_dump (body r)]> ∅)))).
End RequestConfig.

#[export] Instance RequestConfig_model : BaseModel RequestConfig.t :=
    {| model_dump := RequestConfig.dump |}.

Module RequestHistory.
Record t := Make {
      request : RequestConfig.t;
      response_status : option Z;
      response_time_ms : option Z;
      response_headers : gmap string string;
      response_body : option Body }.

    (** [RequestHistory(request=.., response_status=.., ..,
        response_body=..)]: the response body is whatever the target sent
        and has to pass validation. *)
Definition make (request : RequestConfig.t) (response_status response_time_ms : Z)
        (response_headers : gmap string string) (response_body : pyval) : exn + t :=
      match Body_validate response_body with
      | Some b => inr (Make request (Some response_status) (Some response_time_ms)
                         response_headers b)
      | None => inl (ValidationError "2 validation errors for RequestHistory")
      end.

Definition dump (h : t) : gmap string pyval :=
      <["request" := VDict (RequestConfig.dump (request h))]>
      (<["response_status" := dump_opt VInt (response_status h)]>
      (<["response_time_ms" := dump_opt VInt (response_time_ms h)]>
      (<["response_headers" := dump_str_dict (response_headers h)]>
      (<["response_body" := Body_dump (response_body h)]> ∅)))).
End RequestHistory.

#[export] Instance RequestHistory_model : BaseModel RequestHistory.t :=
    {| model_dump := RequestHistory.dump |}.

Module CollectionItem.
Record t := Make {
      title : string;
      request : RequestConfig.t }.

Definition dump (i : t) : gmap string pyval :=
      <["title" := VStr (title i)]>
      (<["request" := VDict (RequestConfig.dump (request i))]> ∅).
End CollectionItem.

Module Collection.
Record t := Make {
      name : string;
      description : option string;
      items : list CollectionItem.t }.

Definition dump (c : t) : gmap string pyval :=
      <["name" := VStr (name c)]>
      (<["description" := dump_opt VStr (description c)]>
      (<["items" := VList ((fun i => VDict (CollectionItem.dump i)) <$> items c)]> ∅)).
End Collection.

#[export] Instance Collection_model : BaseModel Collection.t :=
    {| model_dump := Collection.dump |}.

End Schemas.

Export Schemas.

(* ===================================================================== *)
(** ** The document store *)
(* ===================================================================== *)

Module Mongo.

Abbreviation document := (gmap string pyval).

(** A database: whether the server answers, the documents of every
    collection in insertion order, and the counter identifiers are
    generated from. *)
Record Database := MkDatabase {
  online : bool;
  collections : gmap string (list document);
  next_id : N }.

(** [db[name]]: a collection never written to is empty. *)
Definition coll (d : Database) (name : string) : list document :=
  default [] (collections d !! name).

Definition set_coll (d : Database) (name : string) (docs : list document) : Database :=
  MkDatabase (online d) (<[name := docs]> (collections d)) (next_id d).

(** The filter [{"_id": oid}]. *)
Definition has_id (oid : ObjectId) (doc : document) : bool :=
  match doc !! "_id" with
  | Some (VObjectId o) => bool_decide (o = oid)
  | _ => false
  end.

(** The update [{"$push": {field: v}}] on one document: the array grows at
    its end; an absent field becomes a one-element array; any other value
    is a write error. *)
Definition push (field : string) (v : pyval) (doc : document) : exn + document :=
  match doc !! field with
  | None => inr (<[field := VList [v]]> doc)
  | Some (VList l) => inr (<[field := VList (l ++ [v])]> doc)
  | Some _ => inl (PyMongoError ("The field '" ++ field ++ "' must be an array"))
  end.

(** [db[name].update_one({"_id": oid}, {"$push": {field: v}})]: the first
    document with that identifier is updated in place; when there is none
    nothing is written and nothing is raised. *)
Definition update_one_push (name : string) (oid : ObjectId) (field : string)
    (v : pyval) (d : Database) : exn + Database :=
  if online d then
    match list_find (has_id oid) (coll d name) with
    | None => inr d
    | Some (i, doc) =>
        match push field v doc with
        | inl e => inl e
        | inr doc' => inr (set_coll d name (<[i := doc']> (coll d name)))
        end
    end
  else inl (PyMongoError "No servers found yet").

End Mongo.

Export Mongo.

(* ===================================================================== *)
(** ** database.py *)
(* ===================================================================== *)

Module Database.

(** What [main.py] imports from [database.py], next to the handle [db]:
    the two helpers.  A helper works on the handle ([None] when no store
    is configured); [create_document] may change the store,
    [get_documents] only reads it. *)
Class Helpers := {
  create_document :
    forall {A} `{BaseModel A}, string -> A -> option Database ->
                               (exn + string) * option Database;
  get_documents :
    string -> option Z -> option Database -> exn + list document }.

(** Modelled from the spec: how the store generates identifiers is not in
    the sources; the spec only says they are opaque, store-generated and
    string-renderable.  Here: the twelve bytes, big-endian, of the
    generator's counter. *)
Definition fresh_id (n : N) : ObjectId :=
  (fun i : nat => (n / 256 ^ (11 - N.of_nat i)) mod 256)%N <$> seq 0 12.

(** The last [n] elements of a list, in their order. *)
Definition last_n {A} (n : nat) (l : list A) : list A :=
  drop (length l - n) l.

(** Modelled from the spec: [create_document] of [database.py], which is
    not among the sources.  [append(collectionName, document) -> id]: the
    dumped model is appended to the collection under a store-generated
    identifier, whose string form is returned; an unreachable store
    surfaces as an exception. *)
Definition spec_create_document {A} `{BaseModel A} (name : string) (data : A)
    (db : option Database) : (exn + string) * option Database :=
  match db with
  | None => (inl (Exception "Database not available"), db)
  | Some d =>
      if online d then
        let oid := fresh_id (next_id d) in
        let doc := <["_id" := VObjectId oid]> (model_dump data) in
        (inr (hexlify oid),
         Some (MkDatabase true (<[name := (coll d name ++ [doc])%list]> (collections d))
                 (next_id d + 1)))
      else (inl (PyMongoError "No servers found yet"), db)
  end.

(** Modelled from the spec: [get_documents] of [database.py], which is not
    among the sources.  [list(collectionName, limit?)]: without a limit all
    documents in insertion order; with a limit the [limit] most recently
    inserted documents (the caller reorders them newest first); an
    unreachable store surfaces as an exception. *)
Definition spec_get_documents (name : string) (limit : option Z)
    (db : option Database) : exn + list document :=
  match db with
  | None => inl (Exception "Database not available")
  | Some d =>
      if online d then
        match limit with
        | None => inr (coll d name)
        | Some n => inr (last_n (Z.to_nat n) (coll d name))
        end
      else inl (PyMongoError "No servers found yet")
  end.

(** Modelled from the spec: the two helpers of [database.py] together. *)
Definition SpecHelpers : Helpers :=
  {| create_document := @spec_create_document;
     get_documents := spec_get_documents |}.

End Database.

Export Database.

(* ===================================================================== *)
(** ** main.py *)
(* ===================================================================== *)

Module Main.

(** The arguments of one [requests.request] call. *)
Module OutboundCall.
Record t := Make {
  method : string;
  url : string;
  headers : gmap string string;
  params : gmap string string;
  json : option (gmap string pyval);
  data : option string;
  timeout : Z }.
End OutboundCall.

(** What the handler reads of a [requests.Response]: [json] is [None] when
    [resp.json()] raises [ValueError]. *)
Module Response.
Record t := Make {
  status_code : Z;
  headers : gmap string string;
  text : string;
  json : option pyval }.
End Response.

(** The outside of the process: how [requests.request] ends for an
    outbound call (the exception it raises, or a response) and what the
    wall clock shows at each reading, in seconds.  A transport failure is
    a [RequestException]; the library also raises exceptions that are
    not, for instance a [ValueError] ([UnicodeEncodeError]) for a header
    it cannot encode.  Clock readings are taken as exact rationals: the
    rounding of the interpreter's binary floating point is not part of
    the model. *)
Record Env := MkEnv {
  send : OutboundCall.t -> exn + Response.t;
  clock : nat -> Q }.

(** The state a handler runs in: the store handle [db], the outbound calls
    issued so far, and the number of clock readings taken. *)
Record World := MkWorld {
  db : option Database;
  sent : list OutboundCall.t;
  tick : nat }.

(** Handlers are computations that may raise and that change the world;
    the world survives an exception. *)
Definition M (A : Type) : Type := World -> (exn + A) * World.

Definition ret {A} (a : A) : M A := fun w => (inr a, w).

Definition raise {A} (e : exn) : M A := fun w => (inl e, w).

Definition bind {A B} (m : M A) (k : A -> M B) : M B :=
  fun w => match m w with
           | (inr a, w') => k a w'
           | (inl e, w') => (inl e, w')
           end.

(** [try: m except ..: h]; the handler answers [None] for an exception its
    clause does not catch. *)
Definition try_except {A} (m : M A) (h : exn -> option (M A)) : M A :=
  fun w => match m w with
           | (inr a, w') => (inr a, w')
           | (inl e, w') =>
               match h e with
               | Some k => k w'
               | None => (inl e, w')
               end
           end.

Definition lift_exn {A} (r : exn + A) : M A :=
  match r with inl e => raise e | inr a => ret a end.

(** Run a store helper on the handle. *)
Definition with_db {A} (f : option Database -> (exn + A) * option Database) : M A :=
  fun w => let '(r, d) := f (db w) in (r, MkWorld d (sent w) (tick w)).

Definition get_db : M (option Database) := fun w => (inr (db w), w).

Definition set_db (d : option Database) : M unit :=
  fun w => (inr tt, MkWorld d (sent w) (tick w)).

Notation "x <- m ;; k" := (bind m (fun x => k))
  (at level 100, m at next level, right associativity).
Notation "m ;;; k" := (bind m (fun _ => k))
  (at level 100, right associativity).

(** [a or b] on dicts: an empty dict is falsy. *)
Definition py_or {V} `{EqDecision V} (a b : gmap string V) : gmap string V :=
  if bool_decide (a = ∅) then b else a.

(** [class ExecuteRequestBody(RequestConfig)] *)
Module ExecuteRequestBody.
Record t := Make {
  url : string;
  method : HttpMethod;
  headers : gmap string string;
  params : gmap string string;
  body : option Body;
  save : bool }.
End ExecuteRequestBody.

(** The dict [proxy_request] returns. *)
Module ProxyResult.
Record t := Make {
  status : Z;
  time_ms : Z;
  headers : gmap string string;
  body : pyval }.
End ProxyResult.

Module CreateCollectionBody.
Record t := Make {
  name : string;
  description : option string }.
End CreateCollectionBody.

Module AddItemBody.
Record t := Make {
  collection_id : string;
  title : string;
  request : RequestConfig.t }.
End AddItemBody.

Section Handlers.

Context (env : Env) `{Runtime} `{Helpers}.

(** [time.time()] *)
Definition time_time : M Q :=
  fun w => (inr (clock env (tick w)), MkWorld (db w) (sent w) (S (tick w))).

(** [requests.request(...)] *)
Definition requests_request (call : OutboundCall.t) : M Response.t :=
  fun w =>
    let w' := MkWorld (db w) (sent w ++ [call])%list (tick w) in
    match send env call with
    | inl e => (inl e, w')
    | inr resp => (inr resp, w')
    end.

(** [resp.json()] *)
Definition Response_json (resp : Response.t) : M pyval :=
  match Response.json resp with
  | Some v => ret v
  | None => raise (ValueError "Expecting value")
  end.

(** [POST /proxy] *)
Definition proxy_request (payload : ExecuteRequestBody.t) : M ProxyResult.t :=
  let method := upper (HttpMethod_str (ExecuteRequestBody.method payload)) in
  let url := ExecuteRequestBody.url payload in
  let headers := py_or (ExecuteRequestBody.headers payload) ∅ in
  let params := py_or (ExecuteRequestBody.params payload) ∅ in
  let '(data, json_body) :=
    match ExecuteRequestBody.body payload with
    | None => (None, None)
    | Some (BodyDict d) => (None, Some d)
    | Some (BodyStr s) => (Some (py_str (VStr s)), None)
    end in
  start <- time_time ;;
  resp <- try_except
            (requests_request
               (OutboundCall.Make method url headers params json_body data 30))
            (fun e => match e with
                      | RequestException _ =>
                          Some (raise (HTTPException 502
                                         ("Request failed: " ++ exn_str e)))
                      | _ => None
                      end) ;;
  now <- time_time ;;
  let elapsed_ms := py_int ((now - start) * 1000) in
  let response_headers : gmap string string :=
    list_to_map (map_to_list (Response.headers resp)) in
  let response_status := Response.status_code resp in
  response_body <- try_except (Response_json resp)
                     (fun e => match e with
                               | ValueError _ => Some (ret (VStr (Response.text resp)))
                               | _ => None
                               end) ;;
  request <- lift_exn (RequestConfig.make url method headers params
                         (ExecuteRequestBody.body payload)) ;;
  history_doc <- lift_exn (RequestHistory.make request response_status elapsed_ms
                             response_headers response_body) ;;
  (if ExecuteRequestBody.save payload then
     try_except (with_db (create_document "requesthistory" history_doc) ;;; ret tt)
       (fun _ => Some (ret tt))
   else ret tt) ;;;
  ret (ProxyResult.Make response_status elapsed_ms response_headers response_body).

(** The local [normalize] of [list_history]. *)
Definition list_history_normalize (doc : document) : document :=
  let d := doc in
  let d := foldl (fun (d : document) (kv : string * pyval) =>
                    if has_isoformat kv.2 then <[kv.1 := call_isoformat kv.2]> d
                    else d)
             d (map_to_list d) in
  match d !! "_id" with
  | Some v => <["_id" := VStr (py_str v)]> d
  | None => d
  end.

(** [GET /history] *)
Definition list_history (limit : Z) : M (list document) :=
  docs <- try_except (with_db (fun d => (get_documents "requesthistory" (Some limit) d, d)))
            (fun _ => Some (ret [])) ;;
  ret (reverse (list_history_normalize <$> docs)).

(** [POST /collections] *)
Definition create_collection (body : CreateCollectionBody.t) : M (string * string) :=
  let col := Collection.Make (CreateCollectionBody.name body)
               (CreateCollectionBody.description body) [] in
  try_except
    (inserted_id <- with_db (create_document "collection" col) ;;
     ret (inserted_id, "Collection created"))
    (fun e => Some (raise (HTTPException 500 (exn_str e)))).

(** The local [normalize] of [get_collections]. *)
Definition get_collections_normalize (doc : document) : document :=
  let d := doc in
  let d := foldl (fun (d : document) (kv : string * pyval) =>
                    if has_isoformat kv.2 then <[kv.1 := call_isoformat kv.2]> d
                    else d)
             d (map_to_list d) in
  match d !! "_id" with
  | Some v => <["_id" := VStr (py_str v)]> d
  | None => d
  end.

(** [GET /collections] *)
Definition get_collections : M (list document) :=
  docs <- try_except (with_db (fun d => (get_documents "collection" None d, d)))
            (fun _ => Some (ret [])) ;;
  ret (get_collections_normalize <$> docs).

(** [POST /collections/add-item]; the answer is the text of the
    ["message"] entry. *)
Definition add_item_to_collection (body : AddItemBody.t) : M string :=
  handle <- get_db ;;
  match handle with
  | None => raise (HTTPException 500 "Database not available")
  | Some d =>
      try_except
        (oid <- lift_exn (ObjectId_of_str (AddItemBody.collection_id body)) ;;
         d' <- lift_exn
                 (update_one_push "collection" oid "items"
                    (VDict (<["title" := VStr (AddItemBody.title body)]>
                            (<["request" := VDict (model_dump (AddItemBody.request body))]> ∅)))
                    d) ;;
         set_db (Some d') ;;;
         ret "Item added")
        (fun e => Some (raise (HTTPException 500 (exn_str e))))
  end.

End Handlers.

End Main.

Export Main.

(* ===================================================================== *)
(** ** schemas.py: validation of a request descriptor given as a dict *)
(* ===================================================================== *)

Module Validate.

Definition is_str (v : pyval) : bool :=
  match v with VStr _ => true | _ => false end.

Definition as_str (v : pyval) : option string :=
  match v with VStr s => Some s | _ => None end.

(** A value against [Dict[str, str]]: a dict all of whose values are
    strings. *)
Definition str_dict (v : pyval) : option (gmap string string) :=
  match v with
  | VDict d =>
      if bool_decide (map_Forall (fun _ x => is_str x) d)
      then Some (omap as_str d) else None
  | _ => None
  end.

(** The errors a value reports against [Dict[str, str]]: one when it is no
    dict, else one for each value that is no string. *)
Definition str_dict_errors (v : pyval) : nat :=
  match v with
  | VDict d => size (filter (fun kv : string * pyval => ¬ is_str kv.2) d)
  | _ => 1%nat
  end.

(** [url: str = Field(...)]: required. *)
Definition url_field (d : gmap string pyval) : option string :=
  d !! "url" ≫= as_str.

(** [method: HttpMethod = Field("GET")] *)
Definition method_field (d : gmap string pyval) : option HttpMethod :=
  match d !! "method" with
  | None => Some GET
  | Some v => as_str v ≫= HttpMethod_validate
  end.

(** [headers] and [params]: [Dict[str, str] = Field(default_factory=dict)] *)
Definition dict_field (k : string) (d : gmap string pyval) : option (gmap string string) :=
  match d !! k with
  | None => Some ∅
  | Some v => str_dict v
  end.

Definition dict_field_errors (k : string) (d : gmap string pyval) : nat :=
  match d !! k with
  | None => 0%nat
  | Some v => str_dict_errors v
  end.

(** [body: Optional[Union[Dict[str, Any], str]] = Field(default=None)] *)
Definition body_field (d : gmap string pyval) : option (option Body) :=
  match d !! "body" with
  | None => Some None
  | Some v => Body_validate v
  end.

(** The errors of a field that reports [n] when it is refused. *)
Definition errors_of {A} (o : option A) (n : nat) : nat :=
  match o with Some _ => 0%nat | None => n end.

Definition error_text (n : nat) : string :=
  pretty n ++ (if (n =? 1)%nat then " validation error" else " validation errors")
  ++ " for RequestConfig".

(** [RequestConfig.model_validate(v)]: keys the model does not declare are
    ignored; the exception counts the errors of all fields (a refused
    [body] reports one for each member of the union). *)
Definition RequestConfig_validate (v : pyval) : exn + RequestConfig.t :=
  match v with
  | VDict d =>
      match url_field d, method_field d, dict_field "headers" d,
            dict_field "params" d, body_field d with
      | Some u, Some m, Some h, Some p, Some b =>
          inr (RequestConfig.Make u m h p b)
      | ou, om, _, _, ob =>
          inl (ValidationError
                 (error_text
                    (errors_of ou 1 + errors_of om 1
                     + dict_field_errors "headers" d
                     + dict_field_errors "params" d
                     + errors_of ob 2)%nat))
      end
  | _ => inl (ValidationError (error_text 1))
  end.

End Validate.

Export Validate.

(* ===================================================================== *)
(** ** main.py: the diagnostic endpoint *)
(* ===================================================================== *)

Module Diagnostics.

(** [db.list_collection_names()] on the store of this file: the names of
    its collections; a server that does not answer raises. *)
Definition list_collection_names (d : Database) : exn + list string :=
  if online d then inr (map_to_list (collections d)).*1
  else inl (PyMongoError "No servers found yet").

(** The truth value of [os.getenv(k)]: set, and not the empty string. *)
Definition getenv_truthy (environ : gmap string string) (k : string) : bool :=
  match environ !! k with
  | Some v => negb (String.eqb v "")
  | None => false
  end.

(** Texts are held as their UTF-8 bytes; a character is a leading byte
    and the continuation bytes ([10xxxxxx]) that follow it. *)
Definition is_continuation (c : ascii) : bool :=
  let n := N_of_ascii c in ((128 <=? n) && (n <? 192))%N.

(** [len(s)]: the number of characters. *)
Fixpoint codepoints (s : string) : nat :=
  match s with
  | EmptyString => O
  | String c r => if is_continuation c then codepoints r else S (codepoints r)
  end.

(** [s[:n]]: the first [n] characters, each with all its bytes. *)
Fixpoint str_take (n : nat) (s : string) : string :=
  match s with
  | EmptyString => EmptyString
  | String c r =>
      if is_continuation c then String c (str_take n r)
      else match n with
           | O => EmptyString
           | S k => String c (str_take k r)
           end
  end.

Section TestDatabase.

(** The process environment, the [name] attribute of the store handle,
    and how the store answers [db.list_collection_names()]: with the
    names, or with an exception of its own. *)
Context (environ : gmap string string) (db_name : Database -> string)
        (listing : Database -> exn + list string).

(** [GET /test] *)
Definition test_database : M (gmap string pyval) :=
  let response : gmap string pyval :=
    <["backend" := VStr "✅ Running"]>
    (<["database" := VStr "❌ Not Available"]>
    (<["database_url" := VNone]>
    (<["database_name" := VNone]>
    (<["connection_status" := VStr "Not Connected"]>
    (<["collections" := VList []]> ∅))))) in
  response <-
    try_except
      (handle <- get_db ;;
       match handle with
       | Some d =>
           let response := <["database" := VStr "✅ Available"]> response in
           let response := <["database_url" := VStr "✅ Configured"]> response in
           let response := <["database_name" := VStr (db_name d)]> response in
           let response := <["connection_status" := VStr "Connected"]> response in
           try_except
             (collections <- lift_exn (listing d) ;;
              let response :=
                <["collections" := VList (VStr <$> take 10 collections)]> response in
              ret (<["database" := VStr "✅ Connected & Working"]> response))
             (fun e =>
                Some (ret (<["database" :=
                             VStr ("⚠️  Connected but Error: " ++ str_take 50 (exn_str e))]>
                             response)))
       | None =>
           ret (<["database" := VStr "⚠️  Available but not initialized"]> response)
       end)
      (fun e =>
         Some (ret (<["database" := VStr ("❌ Error: " ++ str_take 50 (exn_str e))]>
                      response))) ;;
  let response :=
    <["database_url" :=
        VStr (if getenv_truthy environ "DATABASE_URL" then "✅ Set" else "❌ Not Set")]>
      response in
  let response :=
    <["database_name" :=
        VStr (if getenv_truthy environ "DATABASE_NAME" then "✅ Set" else "❌ Not Set")]>
      response in
  ret response.

End TestDatabase.

End Diagnostics.

Export Diagnostics.

(* ===================================================================== *)
(** ** Vocabulary of the statements *)
(* ===================================================================== *)

(** The [requests.request] call [proxy_request] issues for a payload
    (lines 72-95 of [main.py], see [proxy_request_sent]). *)
Definition outbound_call (payload : ExecuteRequestBody.t) : OutboundCall.t :=
  OutboundCall.Make
    (HttpMethod_str (ExecuteRequestBody.method payload))
    (ExecuteRequestBody.url payload)
    (ExecuteRequestBody.headers payload)
    (ExecuteRequestBody.params payload)
    (match ExecuteRequestBody.body payload with
     | Some (BodyDict d) => Some d
     | _ => None
     end)
    (match ExecuteRequestBody.body payload with
     | Some (BodyStr s) => Some s
     | _ => None
     end)
    30.

(** What the caller sees of an exception of [requests.request]: a
    [RequestException] becomes a 502 with its text, any other exception
    passes through (lines 96-97 of [main.py]). *)
Definition surfaced (e : exn) : exn :=
  match e with
  | RequestException msg => HTTPException 502 ("Request failed: " ++ msg)
  | _ => e
  end.

(** The body [proxy_request] works with: the decoded JSON, else the text. *)
Definition response_body_of (resp : Response.t) : pyval :=
  match Response.json resp with
  | Some v => v
  | None => VStr (Response.text resp)
  end.

(** The milliseconds between the two clock readings of a proxy call that
    starts in world [w], over exact rationals (the interpreter subtracts
    and multiplies binary floating point, which can move the value by
    one; its sign and its dependence on the readings alone are the
    same). *)
Definition elapsed_ms_of (env : Env) (w : World) : Z :=
  py_int ((clock env (S (tick w)) - clock env (tick w)) * 1000).

(** The request descriptor part of a proxy payload. *)
Definition descriptor_of (payload : ExecuteRequestBody.t) : RequestConfig.t :=
  RequestConfig.Make
    (ExecuteRequestBody.url payload)
    (ExecuteRequestBody.method payload)
    (ExecuteRequestBody.headers payload)
    (ExecuteRequestBody.params payload)
    (ExecuteRequestBody.body payload).

(** The result a proxy call returns for a response. *)
Definition result_of (env : Env) (w : World) (resp : Response.t) : ProxyResult.t :=
  ProxyResult.Make (Response.status_code resp) (elapsed_ms_of env w)
    (Response.headers resp) (response_body_of resp).

(** The history record a proxy call builds for a response whose body
    validated to [b]. *)
Definition history_doc_of (env : Env) (w : World) (payload : ExecuteRequestBody.t)
    (resp : Response.t) (b : option Body) : RequestHistory.t :=
  RequestHistory.Make (descriptor_of payload)
    (Some (Response.status_code resp)) (Some (elapsed_ms_of env w))
    (Response.headers resp) b.

(** The stored history records, oldest first. *)
Definition history (d : option Database) : list document :=
  match d with
  | Some d => coll d "requesthistory"
  | None => []
  end.

(** The ranges [datetime] keeps its fields in. *)
Definition valid_datetime (t : datetime) : Prop :=
  (1 <= year t <= 9999)%N /\ (1 <= month t <= 12)%N /\ (1 <= day t <= 31)%N
  /\ (hour t <= 23)%N /\ (minute t <= 59)%N /\ (second t <= 59)%N
  /\ (microsecond t <= 999999)%N.

(** The [w] decimal digits of [n], most significant first. *)
Fixpoint digits (w : nat) (n : N) : string :=
  match w with
  | O => ""
  | S k => digits k (n / 10) ++ String (ascii_of_N (48 + n mod 10)) ""
  end.

(** The ISO 8601 text of a date and time of day, written out from the
    standard's extended format [YYYY-MM-DDThh:mm:ss], with a fraction of
    six digits [.ffffff] when the microseconds are not zero. *)
Definition iso8601 (t : datetime) : string :=
  digits 4 (year t) ++ "-" ++ digits 2 (month t) ++ "-" ++ digits 2 (day t)
  ++ "T" ++ digits 2 (hour t) ++ ":" ++ digits 2 (minute t) ++ ":"
  ++ digits 2 (second t)
  ++ (if (microsecond t =? 0)%N then "" else "." ++ digits 6 (microsecond t)).

(** A lower-case hexadecimal digit. *)
Definition lower_hex (c : ascii) : bool :=
  let n := N_of_ascii c in
  (((48 <=? n) && (n <=? 57)) || ((97 <=? n) && (n <=? 102)))%N.

Fixpoint all_chars (p : ascii -> bool) (s : string) : bool :=
  match s with
  | EmptyString => true
  | String c r => p c && all_chars p r
  end.

(** One step of the loop over [d.items()]. *)
Definition render_step (d : document) (kv : string * pyval) : document :=
  if has_isoformat kv.2 then <[kv.1 := call_isoformat kv.2]> d else d.

(** What a field of a normalised document is. *)
Definition rendered `{Runtime} (k : string) (v : pyval) : pyval :=
  if decide (k = "_id") then VStr (py_str (call_isoformat v))
  else call_isoformat v.

(** The item [add_item_to_collection] pushes. *)
Definition pushed_item (body : AddItemBody.t) : pyval :=
  VDict (<["title" := VStr (AddItemBody.title body)]>
         (<["request" := VDict (model_dump (AddItemBody.request body))]> ∅)).

(** A runtime to evaluate examples with. *)
Definition example_runtime : Runtime := {| py_repr := fun _ => "<object>" |}.

(* ===================================================================== *)
(** ** Concrete inputs *)
(* ===================================================================== *)

Module Examples.

Definition ping : ExecuteRequestBody.t :=
  ExecuteRequestBody.Make "http://target.test/ping" GET ∅ ∅ None true.

Definition ping_nosave : ExecuteRequestBody.t :=
  ExecuteRequestBody.Make "http://target.test/ping" GET ∅ ∅ None false.

Definition post_raw : ExecuteRequestBody.t :=
  ExecuteRequestBody.Make "http://target.test/echo" POST ∅ ∅
    (Some (BodyStr "hello")) false.

Definition json_headers : gmap string string :=
  {[ "Content-Type" := "application/json" ]}.

(** A target answering [200] with the JSON object [{}]. *)
Definition resp_object : Response.t :=
  Response.Make 200 json_headers "{}" (Some (VDict ∅)).

(** A target answering [200] with the JSON array [[1, 2]]. *)
Definition resp_array : Response.t :=
  Response.Make 200 json_headers "[1, 2]" (Some (VList [VInt 1; VInt 2])).

(** A target answering [200] with the plain text [pong]. *)
Definition resp_text : Response.t :=
  Response.Make 200 ∅ "pong" None.

(** A clock that advances a quarter of a second between readings. *)
Definition quarter_clock (n : nat) : Q := inject_Z (Z.of_nat n) * (1 # 4).

Definition env_answering (resp : Response.t) : Env :=
  MkEnv (fun _ => inr resp) quarter_clock.

Definition env_unreachable : Env :=
  MkEnv (fun _ => inl (RequestException "Connection refused")) quarter_clock.

(** A header the HTTP library cannot encode. *)
Definition env_unencodable : Env :=
  MkEnv (fun _ => inl (ValueError "'latin-1' codec can't encode character"))
    quarter_clock.

Definition empty_store : Database := MkDatabase true ∅ 0.

Definition offline_store : Database := MkDatabase false ∅ 0.

Definition world0 : World := MkWorld (Some empty_store) [] 0.

Definition world_offline : World := MkWorld (Some offline_store) [] 0.

Definition world_no_db : World := MkWorld None [] 0.

(** Three stored history records, oldest first. *)
Definition three_records : list document :=
  [ {[ "n" := VInt 1 ]}; {[ "n" := VInt 2 ]}; {[ "n" := VInt 3 ]} ].

Definition world_three : World :=
  MkWorld (Some (MkDatabase true {[ "requesthistory" := three_records ]} 3)) [] 0.

Definition smoke_tests : CreateCollectionBody.t :=
  CreateCollectionBody.Make "Smoke Tests" None.

(** The store after [POST /collections] with [{name: "Smoke Tests"}]. *)
Definition world_smoke : World :=
  (@create_collection SpecHelpers smoke_tests world0).2.

Definition smoke_doc : document :=
  <["_id" := VObjectId (fresh_id 0)]>
    (Collection.dump (Collection.Make "Smoke Tests" None [])).

Definition smoke_store : Database :=
  MkDatabase true {[ "collection" := [smoke_doc] ]} 1.

Definition ping_descriptor : RequestConfig.t :=
  RequestConfig.Make "http://target.test/ping" GET ∅ ∅ None.

(** Add "Ping" to the collection with the first identifier the store
    generates. *)
Definition add_ping : AddItemBody.t :=
  AddItemBody.Make "000000000000000000000000" "Ping" ping_descriptor.

Definition ping_item : pyval :=
  VDict (<["title" := VStr "Ping"]>
         (<["request" := VDict (RequestConfig.dump ping_descriptor)]> ∅)).

(** A stored document with a timestamp. *)
Definition stamped_doc : document :=
  <["_id" := VObjectId (fresh_id 7)]>
  (<["created_at" := VDatetime (Datetime 2024 3 9 18 5 0 0)]>
  (<["name" := VStr "Smoke Tests"]> ∅)).

(** A second item for the same collection. *)
Definition add_pong : AddItemBody.t :=
  AddItemBody.Make "000000000000000000000000" "Pong"
    (RequestConfig.Make "http://target.test/pong" POST ∅ ∅ (Some (BodyStr "pong"))).

(** A store whose listing fails with a text of more than fifty
    characters, some of them outside ASCII. *)
Definition long_error : string :=
  "Zeitüberschreitung bei der Verbindung zum Datenbankserver über TCP: keine Antwort".

Definition failing_listing (d : Database) : exn + list string :=
  inl (PyMongoError long_error).

End Examples.

Import Examples.

(* ===================================================================== *)
(** ** Basic facts *)
(* ===================================================================== *)

Lemma upper_HttpMethod_str (m : HttpMethod) :
  upper (HttpMethod_str m) = HttpMethod_str m.
Proof. by destruct m. Qed.

Lemma HttpMethod_validate_str (m : HttpMethod) :
  HttpMethod_validate (HttpMethod_str m) = Some m.
Proof. by destruct m. Qed.

Lemma py_or_empty {V} `{EqDecision V} (a : gmap string V) : py_or a ∅ = a.
Proof. unfold py_or. by case_bool_decide. Qed.

Lemma RequestConfig_make_descriptor (payload : ExecuteRequestBody.t) :
  RequestConfig.make (ExecuteRequestBody.url payload)
    (upper (HttpMethod_str (ExecuteRequestBody.method payload)))
    (py_or (ExecuteRequestBody.headers payload) ∅)
    (py_or (ExecuteRequestBody.params payload) ∅)
    (ExecuteRequestBody.body payload) = inr (descriptor_of payload).
Proof.
  unfold RequestConfig.make.
  by rewrite upper_HttpMethod_str, HttpMethod_validate_str, !py_or_empty.
Qed.

(** [int] of a number that is not negative is not negative. *)
Lemma py_int_nonneg (q : Q) : (0 <= q)%Q -> 0 <= py_int q.
Proof.
  unfold Qle, py_int. simpl. intros Hq. apply Z.quot_pos; lia.
Qed.

(** The measured time is not negative as long as the clock does not run
    backwards between the two readings. *)
Lemma elapsed_ms_nonneg (env : Env) (w : World) :
  (clock env (tick w) <= clock env (S (tick w)))%Q ->
  0 <= elapsed_ms_of env w.
Proof.
  intros Hclock. apply py_int_nonneg, Qmult_le_0_compat; [|done].
  by apply Qle_minus_iff in Hclock.
Qed.

Lemma HttpMethod_str_inj (m m' : HttpMethod) :
  HttpMethod_str m = HttpMethod_str m' -> m = m'.
Proof. by destruct m, m'. Qed.

Lemma Body_dump_inj (b b' : option Body) : Body_dump b = Body_dump b' -> b = b'.
Proof. destruct b as [[]|], b' as [[]|]; simpl; congruence. Qed.

Lemma dump_str_dict_inj (m m' : gmap string string) :
  dump_str_dict m = dump_str_dict m' -> m = m'.
Proof.
  unfold dump_str_dict. intros [= Heq].
  eapply (map_fmap_inj VStr); [|done]. by intros ?? [=].
Qed.

Lemma RequestConfig_dump_lookup (r : RequestConfig.t) :
  RequestConfig.dump r !! "url" = Some (VStr (RequestConfig.url r))
  /\ RequestConfig.dump r !! "method"
     = Some (VStr (HttpMethod_str (RequestConfig.method r)))
  /\ RequestConfig.dump r !! "headers"
     = Some (dump_str_dict (RequestConfig.headers r))
  /\ RequestConfig.dump r !! "params"
     = Some (dump_str_dict (RequestConfig.params r))
  /\ RequestConfig.dump r !! "body" = Some (Body_dump (RequestConfig.body r)).
Proof. unfold RequestConfig.dump. by simplify_map_eq. Qed.

(** The dump of a request descriptor determines the descriptor: two
    descriptors with equal dumps have equal url, method, headers, params
    and body. *)
Lemma RequestConfig_dump_inj (r r' : RequestConfig.t) :
  RequestConfig.dump r = RequestConfig.dump r' -> r = r'.
Proof.
  intros Heq.
  destruct (RequestConfig_dump_lookup r) as (Hu & Hm & Hh & Hp & Hb).
  destruct (RequestConfig_dump_lookup r') as (Hu' & Hm' & Hh' & Hp' & Hb').
  rewrite Heq in Hu, Hm, Hh, Hp, Hb. clear Heq.
  destruct r, r'; simpl in *. f_equal.
  - congruence.
  - apply HttpMethod_str_inj. congruence.
  - apply dump_str_dict_inj. congruence.
  - apply dump_str_dict_inj. congruence.
  - apply Body_dump_inj. congruence.
Qed.

Section ProxyFacts.

Context (env : Env) `{Runtime} `{Helpers}.

(** An exception of the outbound call ends the proxy call before
    anything else happens. *)
Lemma proxy_request_transport (payload : ExecuteRequestBody.t) (w : World) e :
  send env (outbound_call payload) = inl e ->
  proxy_request env payload w =
    (inl (surfaced e),
     MkWorld (db w) (sent w ++ [outbound_call payload]) (S (tick w))).
Proof.
  intros Hsend. unfold proxy_request, outbound_call in *.
  rewrite upper_HttpMethod_str, !py_or_empty.
  destruct payload as [u m h p [[d|s]|] sv]; simpl in *;
    unfold bind, try_except, time_time, requests_request; simpl;
    rewrite Hsend; by destruct e.
Qed.

(** A response whose body the history schema rejects: the construction of
    the record raises, whatever [save] says. *)
Lemma proxy_request_rejected (payload : ExecuteRequestBody.t) (w : World) resp :
  send env (outbound_call payload) = inr resp ->
  Body_validate (response_body_of resp) = None ->
  proxy_request env payload w =
    (inl (ValidationError "2 validation errors for RequestHistory"),
     MkWorld (db w) (sent w ++ [outbound_call payload]) (S (S (tick w)))).
Proof.
  intros Hsend Hval. unfold proxy_request, outbound_call, response_body_of in *.
  rewrite RequestConfig_make_descriptor, upper_HttpMethod_str, !py_or_empty.
  destruct payload as [u m h p [[d|s]|] sv]; simpl in *;
    unfold bind, try_except, time_time, requests_request, Response_json,
      RequestHistory.make; simpl;
    rewrite Hsend; simpl;
    destruct (Response.json resp); simpl in *; try done; by rewrite Hval.
Qed.

(** A response whose body validates: the result is returned; with [save]
    the history helper ran once on the handle, and its outcome is
    ignored. *)
Lemma proxy_request_returns (payload : ExecuteRequestBody.t) (w : World) resp b :
  send env (outbound_call payload) = inr resp ->
  Body_validate (response_body_of resp) = Some b ->
  proxy_request env payload w =
    (inr (result_of env w resp),
     MkWorld
       (if ExecuteRequestBody.save payload
        then (create_document "requesthistory"
                (history_doc_of env w payload resp b) (db w)).2
        else db w)
       (sent w ++ [outbound_call payload]) (S (S (tick w)))).
Proof.
  intros Hsend Hval.
  unfold result_of, history_doc_of, elapsed_ms_of.
  unfold proxy_request, outbound_call, response_body_of in *.
  rewrite RequestConfig_make_descriptor, upper_HttpMethod_str, !py_or_empty.
  destruct payload as [u m h p [[d|s]|] sv]; simpl in *;
    unfold bind, try_except, time_time, requests_request, Response_json,
      RequestHistory.make, with_db; simpl;
    rewrite Hsend; simpl; rewrite !list_to_map_to_list;
    destruct (Response.json resp); simpl in *; simplify_eq; rewrite ?Hval; simpl;
    destruct sv; simpl; try done;
    match goal with
    | |- context [@create_document ?i ?A ?B ?n ?x ?d] =>
        by destruct (@create_document i A B n x d) as [[?|?] ?]
    end.
Qed.

End ProxyFacts.

(* ===================================================================== *)
(** ** The proxy endpoint *)
(* ===================================================================== *)

Section Proxy.

Context (env : Env) `{Runtime}.

(** C3: a proxy call whose outbound request fails at the transport level
    ends in a 502 whose detail carries the text of the underlying error,
    and the store is left exactly as it was, whatever the [save] flag and
    whatever the history helper would have done. *)
Theorem proxy_transport_failure_is_bad_gateway `{Helpers}
    (payload : ExecuteRequestBody.t) (w : World) (msg : string) :
  send env (outbound_call payload) = inl (RequestException msg) ->
  exists w',
    proxy_request env payload w =
      (inl (HTTPException 502 ("Request failed: " ++ msg)), w')
    /\ db w' = db w
    /\ history (db w') = history (db w).
Proof.
  intros Hsend. eexists. split;
    [exact (proxy_request_transport env payload w (RequestException msg) Hsend)
    |done].
Qed.

(** C9: every proxy call issues one outbound call; a JSON-object body is
    handed over as the [json] argument (which the HTTP library encodes), a
    string body as the raw [data] argument, and without a body neither is
    given. *)
Theorem proxy_forwards_body `{Helpers} (payload : ExecuteRequestBody.t) (w : World) :
  exists call,
    sent (proxy_request env payload w).2 = (sent w ++ [call])%list
    /\ match ExecuteRequestBody.body payload with
       | Some (BodyDict d) =>
           OutboundCall.json call = Some d /\ OutboundCall.data call = None
       | Some (BodyStr s) =>
           OutboundCall.data call = Some s /\ OutboundCall.json call = None
       | None =>
           OutboundCall.json call = None /\ OutboundCall.data call = None
       end.
Proof.
  exists (outbound_call payload). split.
  - destruct (send env (outbound_call payload)) as [msg|resp] eqn:Hsend.
    + by rewrite (proxy_request_transport env payload w msg Hsend).
    + destruct (Body_validate (response_body_of resp)) as [b|] eqn:Hval.
      * by rewrite (proxy_request_returns env payload w resp b Hsend Hval).
      * by rewrite (proxy_request_rejected env payload w resp Hsend Hval).
  - unfold outbound_call. by destruct payload as [? ? ? ? [[?|?]|] ?].
Qed.

(** C6: the history record is built before [save] is looked at.  When the
    target answers with JSON that is neither an object, a string nor
    [null] -- a JSON array is one -- the call raises a validation error
    and returns nothing, for every payload, [save = false] included. *)
Theorem proxy_validation_precedes_save `{Helpers}
    (payload : ExecuteRequestBody.t) (w : World) (resp : Response.t) (j : pyval) :
  (forall l, Body_validate (VList l) = None)
  /\ (send env (outbound_call payload) = inr resp ->
      Response.json resp = Some j ->
      Body_validate j = None ->
      exists msg w',
        proxy_request env payload w = (inl (ValidationError msg), w')
        /\ db w' = db w).
Proof.
  split; [done|]. intros Hsend Hjson Hval.
  do 2 eexists. split.
  - apply proxy_request_rejected with (resp := resp); [done|].
    unfold response_body_of. by rewrite Hjson.
  - done.
Qed.

(** C5: when [save] is set and persisting the history record fails (the
    helper raises), the exception is dropped: the call returns its result
    and no error, and the result is the one a call returns in which the
    helper succeeds. *)
Theorem proxy_persistence_failure_is_swallowed (failing working : Helpers)
    (payload : ExecuteRequestBody.t) (w1 w2 : World) (resp : Response.t)
    (b : option Body) (e : exn) (id : string) (d1 d2 : option Database) :
  ExecuteRequestBody.save payload = true ->
  send env (outbound_call payload) = inr resp ->
  Body_validate (response_body_of resp) = Some b ->
  tick w1 = tick w2 ->
  @create_document failing _ _ "requesthistory"
    (history_doc_of env w1 payload resp b) (db w1) = (inl e, d1) ->
  @create_document working _ _ "requesthistory"
    (history_doc_of env w2 payload resp b) (db w2) = (inr id, d2) ->
  (@proxy_request env _ failing payload w1).1 = inr (result_of env w1 resp)
  /\ (@proxy_request env _ failing payload w1).1
     = (@proxy_request env _ working payload w2).1.
Proof.
  intros _ Hsend Hval Htick _ _.
  rewrite (@proxy_request_returns env _ failing payload w1 resp b Hsend Hval).
  rewrite (@proxy_request_returns env _ working payload w2 resp b Hsend Hval).
  simpl. unfold result_of, elapsed_ms_of. by rewrite Htick.
Qed.

End Proxy.

(* ===================================================================== *)
(** ** The proxy endpoint and the history store *)
(* ===================================================================== *)

(** What the store helper of the spec does to the history. *)
Lemma spec_create_document_history {A} `{BaseModel A} (data : A)
    (d : option Database) :
  history (spec_create_document "requesthistory" data d).2 =
    match d with
    | Some s =>
        if online s
        then (history d ++
              [<["_id" := VObjectId (fresh_id (next_id s))]> (model_dump data)])%list
        else history d
    | None => history d
    end.
Proof.
  destruct d as [s|]; [|done]. unfold spec_create_document.
  destruct (online s); [|done]. simpl. unfold coll. simpl.
  by rewrite lookup_insert_eq.
Qed.

Lemma RequestHistory_dump_request (h : RequestHistory.t) :
  RequestHistory.dump h !! "request"
  = Some (VDict (RequestConfig.dump (RequestHistory.request h))).
Proof. unfold RequestHistory.dump. by simplify_map_eq. Qed.

Lemma RequestHistory_dump_status (h : RequestHistory.t) :
  RequestHistory.dump h !! "response_status"
  = Some (dump_opt VInt (RequestHistory.response_status h)).
Proof. unfold RequestHistory.dump. by simplify_map_eq. Qed.

Section ProxyHistory.

Context (env : Env) `{Runtime}.

(** C2 (at the failing input): for a target that answers [200] with the
    JSON array [[1, 2]] the call does not return status, time, headers and
    body; it ends in a validation error, although [save] is off. *)
Theorem proxy_json_array_raises :
  (@proxy_request (Examples.env_answering Examples.resp_array) _ SpecHelpers
     Examples.ping_nosave Examples.world0).1
  = inl (ValidationError "2 validation errors for RequestHistory").
Proof. reflexivity. Qed.

(** C4 (amended): a proxy call appends at most one history record.  With
    [save = false] the store is not touched.  With [save = true], when the
    call returns a result and the store is available, exactly one record
    is appended; its [request] is the dump of the submitted descriptor and
    its [response_status] the status returned.  When the store is
    unavailable nothing is appended. *)
Theorem proxy_appends_at_most_one_record (payload : ExecuteRequestBody.t) (w : World) :
  let out := @proxy_request env _ SpecHelpers payload w in
  (history (db out.2) = history (db w)
   \/ exists rec, history (db out.2) = (history (db w) ++ [rec])%list)
  /\ (forall helpers : Helpers,
        ExecuteRequestBody.save payload = false ->
        db (@proxy_request env _ helpers payload w).2 = db w)
  /\ (forall d r,
        ExecuteRequestBody.save payload = true ->
        db w = Some d -> online d = true ->
        out.1 = inr r ->
        exists rec,
          history (db out.2) = (history (db w) ++ [rec])%list
          /\ rec !! "request" = Some (VDict (model_dump (descriptor_of payload)))
          /\ rec !! "response_status" = Some (VInt (ProxyResult.status r)))
  /\ (forall r,
        out.1 = inr r ->
        db w = None \/ (exists d, db w = Some d /\ online d = false) ->
        history (db out.2) = history (db w)).
Proof.
  intros out. subst out.
  destruct (send env (outbound_call payload)) as [msg|resp] eqn:Hsend.
  { repeat split.
    - left. by rewrite (proxy_request_transport env payload w msg Hsend).
    - intros helpers _.
      by rewrite (@proxy_request_transport env _ helpers payload w msg Hsend).
    - intros d r _ _ _.
      by rewrite (proxy_request_transport env payload w msg Hsend).
    - intros r.
      by rewrite (proxy_request_transport env payload w msg Hsend). }
  destruct (Body_validate (response_body_of resp)) as [b|] eqn:Hval.
  2:{ repeat split.
      - left. by rewrite (proxy_request_rejected env payload w resp Hsend Hval).
      - intros helpers _.
        by rewrite (@proxy_request_rejected env _ helpers payload w resp Hsend Hval).
      - intros d r _ _ _.
        by rewrite (proxy_request_rejected env payload w resp Hsend Hval).
      - intros r.
        by rewrite (proxy_request_rejected env payload w resp Hsend Hval). }
  rewrite (@proxy_request_returns env _ SpecHelpers payload w resp b Hsend Hval).
  cbn [fst snd db]. repeat split.
  - destruct (ExecuteRequestBody.save payload); [|by left].
    cbn [create_document SpecHelpers]. rewrite spec_create_document_history.
    destruct (db w) as [s|]; [|by left].
    destruct (online s); [right; by eexists|by left].
  - intros helpers Hsave.
    rewrite (@proxy_request_returns env _ helpers payload w resp b Hsend Hval).
    by rewrite Hsave.
  - intros d r Hsave Hdb Hon Hr. rewrite Hsave.
    cbn [create_document SpecHelpers]. rewrite spec_create_document_history.
    rewrite Hdb, Hon. eexists. split; [done|]. simplify_eq. split.
    + rewrite lookup_insert_ne by done. cbn [model_dump RequestHistory_model].
      by rewrite RequestHistory_dump_request.
    + rewrite lookup_insert_ne by done. cbn [model_dump RequestHistory_model].
      by rewrite RequestHistory_dump_status.
  - intros r _ Hdown.
    destruct (ExecuteRequestBody.save payload); [|done].
    cbn [create_document SpecHelpers]. rewrite spec_create_document_history.
    destruct Hdown as [->|(d & -> & ->)]; done.
Qed.

End ProxyHistory.

(** C4 (as stated, refuted): [save] is set and the target answers, but the
    store is unreachable; the call returns its result and the history has
    not gained a record. *)
Lemma proxy_save_offline_store_appends_nothing :
  let out := @proxy_request (Examples.env_answering Examples.resp_object)
               example_runtime SpecHelpers Examples.ping Examples.world_offline in
  ExecuteRequestBody.save Examples.ping = true
  /\ send (Examples.env_answering Examples.resp_object) (outbound_call Examples.ping)
     = inr Examples.resp_object
  /\ out.1 = inr (ProxyResult.Make 200 250 Examples.json_headers (VDict ∅))
  /\ history (db out.2) = history (db Examples.world_offline)
  /\ ~ (exists rec,
          history (db out.2) = (history (db Examples.world_offline) ++ [rec])%list).
Proof.
  repeat split. intros [rec Hrec]. vm_compute in Hrec. discriminate.
Qed.

Lemma proxy_transport_failure_witness :
  exists w',
    @proxy_request Examples.env_unreachable example_runtime SpecHelpers
      Examples.ping Examples.world0
    = (inl (HTTPException 502 "Request failed: Connection refused"), w')
    /\ db w' = db Examples.world0
    /\ history (db w') = history (db Examples.world0).
Proof.
  apply (@proxy_transport_failure_is_bad_gateway Examples.env_unreachable
           example_runtime SpecHelpers Examples.ping Examples.world0
           "Connection refused").
  reflexivity.
Defined.

Lemma proxy_validation_precedes_save_witness :
  exists msg w',
    @proxy_request (Examples.env_answering Examples.resp_array) example_runtime
      SpecHelpers Examples.ping_nosave Examples.world0
    = (inl (ValidationError msg), w')
    /\ db w' = db Examples.world0.
Proof.
  apply (proj2 (@proxy_validation_precedes_save
                  (Examples.env_answering Examples.resp_array) example_runtime
                  SpecHelpers Examples.ping_nosave Examples.world0
                  Examples.resp_array (VList [VInt 1; VInt 2])));
    reflexivity.
Defined.

Lemma proxy_persistence_failure_witness :
  (@proxy_request (Examples.env_answering Examples.resp_text) example_runtime
     SpecHelpers Examples.ping Examples.world_offline).1
  = inr (ProxyResult.Make 200 250 ∅ (VStr "pong"))
  /\ (@proxy_request (Examples.env_answering Examples.resp_text) example_runtime
        SpecHelpers Examples.ping Examples.world_offline).1
     = (@proxy_request (Examples.env_answering Examples.resp_text) example_runtime
          SpecHelpers Examples.ping Examples.world0).1.
Proof.
  apply (@proxy_persistence_failure_is_swallowed
           (Examples.env_answering Examples.resp_text) example_runtime
           SpecHelpers SpecHelpers Examples.ping
           Examples.world_offline Examples.world0 Examples.resp_text
           (Some (BodyStr "pong")) (PyMongoError "No servers found yet")
           (hexlify (fresh_id 0)) (Some Examples.offline_store)
           (@create_document SpecHelpers _ _ "requesthistory"
              (history_doc_of (Examples.env_answering Examples.resp_text)
                 Examples.world0 Examples.ping Examples.resp_text
                 (Some (BodyStr "pong")))
              (db Examples.world0)).2);
    reflexivity.
Defined.

Lemma proxy_appends_one_record_witness :
  exists rec,
    history (db (@proxy_request (Examples.env_answering Examples.resp_object)
                   example_runtime SpecHelpers Examples.ping Examples.world0).2)
    = (history (db Examples.world0) ++ [rec])%list
    /\ rec !! "request" = Some (VDict (model_dump (descriptor_of Examples.ping)))
    /\ rec !! "response_status" = Some (VInt 200).
Proof.
  apply (proj1 (proj2 (proj2
           (@proxy_appends_at_most_one_record
              (Examples.env_answering Examples.resp_object) example_runtime
              Examples.ping Examples.world0)))
           Examples.empty_store
           (ProxyResult.Make 200 250 Examples.json_headers (VDict ∅)));
    reflexivity.
Defined.

(* ===================================================================== *)
(** ** The history endpoint *)
(* ===================================================================== *)

(** Reversing the last [n] elements gives the first [n] of the reversal. *)
Lemma reverse_last_n {A} (n : nat) (l : list A) :
  reverse (last_n n l) = take n (reverse l).
Proof. unfold last_n. by rewrite take_reverse. Qed.

Section History.

Context `{Runtime}.

(** With the store reachable, [list_history] is the newest-first prefix of
    the stored records, normalised. *)
Lemma list_history_spec (w : World) (d : Database) (N : Z) :
  db w = Some d -> online d = true ->
  @list_history _ SpecHelpers N w
  = (inr (list_history_normalize
            <$> take (Z.to_nat N) (reverse (history (db w)))), w).
Proof.
  intros Hdb Hon. unfold list_history, bind, try_except, with_db, ret.
  cbn [get_documents SpecHelpers]. unfold spec_get_documents.
  rewrite Hdb, Hon. cbn [history].
  rewrite <- fmap_reverse, reverse_last_n.
  destruct w as [dw sw tw]. simpl in *. by subst.
Qed.

(** C1: with the store reachable and [N] a count, [GET /history?limit=N]
    returns at most [N] records: the [N] most recently inserted ones,
    newest first, so that of two returned records the one inserted later
    comes earlier. *)
Theorem list_history_newest_first (w : World) (d : Database) (N : Z) :
  0 <= N -> db w = Some d -> online d = true ->
  exists result,
    @list_history _ SpecHelpers N w = (inr result, w)
    /\ Z.of_nat (length result) <= N
    /\ result = list_history_normalize
                  <$> take (Z.to_nat N) (reverse (history (db w)))
    /\ (forall (i j : nat) (a b : document),
          (i < j)%nat ->
          history (db w) !! i = Some a ->
          history (db w) !! j = Some b ->
          (length (history (db w)) - Z.to_nat N <= i)%nat ->
          exists p q : nat,
            (p < q)%nat
            /\ result !! p = Some (list_history_normalize b)
            /\ result !! q = Some (list_history_normalize a)).
Proof.
  intros HN Hdb Hon. eexists. split; [by apply list_history_spec with d|].
  set (l := history (db w)). split; [|split; [done|]].
  - rewrite length_fmap, length_take. lia.
  - intros i j a b Hij Ha Hb Hi.
    pose proof (lookup_lt_Some _ _ _ Ha) as Hia.
    pose proof (lookup_lt_Some _ _ _ Hb) as Hjb.
    exists (length l - S j)%nat, (length l - S i)%nat.
    split; [lia|].
    rewrite !list_lookup_fmap, !lookup_take_lt by lia.
    rewrite !reverse_lookup by lia.
    replace (length l - S (length l - S j))%nat with j by lia.
    replace (length l - S (length l - S i))%nat with i by lia.
    by rewrite Ha, Hb.
Qed.

End History.

Lemma list_history_newest_first_witness :
  exists result,
    @list_history example_runtime SpecHelpers 2 world_three = (inr result, world_three)
    /\ Z.of_nat (length result) <= 2
    /\ result = @list_history_normalize example_runtime
                  <$> take (Z.to_nat 2) (reverse (history (db world_three)))
    /\ (forall (i j : nat) (a b : document),
          (i < j)%nat ->
          history (db world_three) !! i = Some a ->
          history (db world_three) !! j = Some b ->
          (length (history (db world_three)) - Z.to_nat 2 <= i)%nat ->
          exists p q : nat,
            (p < q)%nat
            /\ result !! p = Some (@list_history_normalize example_runtime b)
            /\ result !! q = Some (@list_history_normalize example_runtime a)).
Proof.
  apply (@list_history_newest_first example_runtime world_three
           (MkDatabase true {[ "requesthistory" := three_records ]} 3) 2);
    [lia|reflexivity|reflexivity].
Defined.

(* ===================================================================== *)
(** ** Normalisation of stored documents *)
(* ===================================================================== *)

(** The loop over a list of items with distinct keys: an item with an
    [isoformat] overwrites its key, every other key keeps its entry. *)
Lemma foldl_render_step_lookup (items : list (string * pyval)) (acc : document)
    (k : string) :
  NoDup items.*1 ->
  foldl render_step acc items !! k
  = match (list_to_map items : document) !! k with
    | Some v => if has_isoformat v then Some (call_isoformat v) else acc !! k
    | None => acc !! k
    end.
Proof.
  revert acc. induction items as [|[k' v'] items IH]; intros acc Hnd.
  - simpl. by rewrite lookup_empty.
  - apply NoDup_cons in Hnd as [Hk' Hnd]. simpl in *.
    rewrite IH by done.
    assert ((list_to_map items : document) !! k' = None) as Hnone
      by by apply not_elem_of_list_to_map_1.
    destruct (decide (k = k')) as [->|Hne].
    + rewrite Hnone, lookup_insert_eq. unfold render_step. simpl.
      destruct (has_isoformat v'); [by rewrite lookup_insert_eq|done].
    + rewrite lookup_insert_ne by done. unfold render_step. simpl.
      destruct (has_isoformat v'); [by rewrite lookup_insert_ne|done].
Qed.

(** The whole loop is [call_isoformat] on every entry. *)
Lemma foldl_render_step_items (doc : document) (k : string) :
  foldl render_step doc (map_to_list doc) !! k = call_isoformat <$> doc !! k.
Proof.
  rewrite foldl_render_step_lookup by apply NoDup_fst_map_to_list.
  rewrite list_to_map_to_list.
  destruct (doc !! k) as [v|] eqn:Hk; [|done]. simpl.
  by destruct v.
Qed.

(** *** The texts [isoformat] and [str] of an identifier produce *)

Lemma str_app_cons (c : ascii) (a b : string) : String c a ++ b = String c (a ++ b).
Proof. reflexivity. Qed.

Lemma str_app_assoc (a b c : string) : (a ++ b) ++ c = a ++ (b ++ c).
Proof. induction a as [|x a IH]; [done|]. by rewrite !str_app_cons, IH. Qed.

Lemma str_app_nil_r (a : string) : a ++ "" = a.
Proof. induction a as [|x a IH]; [done|]. by rewrite str_app_cons, IH. Qed.

Lemma zeros_snoc (k : nat) : zeros k ++ "0" = zeros (S k).
Proof. induction k as [|k IH]; [done|]. simpl. by rewrite str_app_cons, IH. Qed.

Lemma digits_zero (k : nat) : digits k 0 = zeros k.
Proof.
  induction k as [|k IH]; [done|].
  change (digits (S k) 0) with (digits k 0 ++ "0"). by rewrite IH, zeros_snoc.
Qed.

Lemma pretty_N_char_digit (x : N) :
  (x < 10)%N -> pretty_N_char x = ascii_of_N (48 + x).
Proof.
  intros Hx. destruct x as [|p]; [done|].
  do 4 (destruct p as [p|p|]; try done); lia.
Qed.

(** The digits the pretty-printer puts in front of [s], padded with
    zeros to [w] places, are the [w] digits of the number. *)
Lemma pretty_N_go_digits (w : nat) :
  forall (n : N) (s : string),
    (n < 10 ^ N.of_nat w)%N ->
    zeros (w + String.length s - String.length (pretty_N_go n s)) ++ pretty_N_go n s
    = digits w n ++ s.
Proof.
  induction w as [|w IH]; intros n s Hn.
  - assert (n = 0%N) as -> by (simpl in Hn; lia).
    rewrite pretty_N_go_0. simpl. by rewrite Nat.sub_diag.
  - destruct (decide (n = 0%N)) as [->|Hpos].
    + rewrite pretty_N_go_0, digits_zero.
      replace (S w + String.length s - String.length s)%nat with (S w) by lia.
      done.
    + rewrite pretty_N_go_step by lia.
      change (digits (S w) n)
        with (digits w (n / 10) ++ String (ascii_of_N (48 + n mod 10)) "").
      rewrite str_app_assoc, str_app_cons. change ("" ++ s) with s.
      rewrite <- pretty_N_char_digit by (apply N.mod_lt; lia).
      rewrite <- IH.
      * simpl.
        by replace (w + S (String.length s))%nat
          with (S (w + String.length s)) by lia.
      * rewrite Nat2N.inj_succ, N.pow_succ_r' in Hn.
        apply N.Div0.div_lt_upper_bound; lia.
Qed.

(** Zero padding to [w] places gives the [w] digits of a number that has
    no more than [w]. *)
Lemma zpad_digits (w : nat) (n : N) :
  (0 < w)%nat -> (n < 10 ^ N.of_nat w)%N -> zpad w n = digits w n.
Proof.
  intros Hw Hn. unfold zpad. destruct (decide (n = 0%N)) as [->|Hpos].
  - destruct w as [|w]; [lia|]. rewrite digits_zero.
    change (pretty 0%N) with "0". simpl. rewrite Nat.sub_0_r. apply zeros_snoc.
  - assert (pretty n = pretty_N_go n "") as ->.
    { unfold pretty, pretty_N. by case_decide. }
    pose proof (pretty_N_go_digits w n "" Hn) as Hgo.
    rewrite str_app_nil_r in Hgo. simpl in Hgo. by rewrite Nat.add_0_r in Hgo.
Qed.

(** [isoformat] writes the ISO 8601 text of every datetime. *)
Lemma isoformat_iso8601 (t : datetime) :
  valid_datetime t -> isoformat t = iso8601 t.
Proof.
  intros (Hy & Hmo & Hd & Hh & Hmi & Hs & Hus).
  unfold isoformat, isoformat_sep, iso8601.
  rewrite (zpad_digits 4 (year t)), (zpad_digits 2 (month t)),
    (zpad_digits 2 (day t)), (zpad_digits 2 (hour t)),
    (zpad_digits 2 (minute t)), (zpad_digits 2 (second t)),
    (zpad_digits 6 (microsecond t)) by (simpl; lia).
  done.
Qed.

Lemma hex_char_spec (x : N) :
  (x < 16)%N ->
  is_space (hex_char x) = false /\ hex_digit (hex_char x) = Some x
  /\ lower_hex (hex_char x) = true.
Proof.
  intros Hx. destruct x as [|p]; [done|].
  do 5 (destruct p as [p|p|]; try done); lia.
Qed.

(** [fromhex] reads back the bytes [hexlify] wrote. *)
Lemma fromhex_hexlify (o : list N) :
  Forall (fun b => (b < 256)%N) o -> fromhex (hexlify o) = Some o.
Proof.
  induction 1 as [|b o Hb _ IH]; [done|].
  assert (b / 16 < 16)%N as Hhi by (apply N.Div0.div_lt_upper_bound; lia).
  assert (b mod 16 < 16)%N as Hlo by (apply N.mod_lt; lia).
  destruct (hex_char_spec _ Hhi) as (Hs1 & Hd1 & _).
  destruct (hex_char_spec _ Hlo) as (_ & Hd2 & _).
  cbn [hexlify fromhex]. rewrite Hs1, Hd1, Hd2, IH. simpl.
  do 2 f_equal. rewrite (N.div_mod b 16) at 3 by lia. lia.
Qed.

Lemma hexlify_length (o : list N) : String.length (hexlify o) = (2 * length o)%nat.
Proof. induction o as [|b o IH]; [done|]. simpl. rewrite IH. lia. Qed.

Lemma hexlify_lower_hex (o : list N) :
  Forall (fun b => (b < 256)%N) o -> all_chars lower_hex (hexlify o) = true.
Proof.
  induction 1 as [|b o Hb _ IH]; [done|].
  assert (b / 16 < 16)%N as Hhi by (apply N.Div0.div_lt_upper_bound; lia).
  assert (b mod 16 < 16)%N as Hlo by (apply N.mod_lt; lia).
  destruct (hex_char_spec _ Hhi) as (_ & _ & H1).
  destruct (hex_char_spec _ Hlo) as (_ & _ & H2).
  cbn [hexlify all_chars]. by rewrite H1, H2, IH.
Qed.

(** The string form of an identifier is one [ObjectId] reads back. *)
Lemma ObjectId_of_str_hexlify `{Runtime} (o : ObjectId) :
  length o = 12%nat -> Forall (fun b => (b < 256)%N) o ->
  ObjectId_of_str (hexlify o) = inr o.
Proof.
  intros Hlen Hb. unfold ObjectId_of_str.
  by rewrite hexlify_length, Hlen, fromhex_hexlify.
Qed.

Section Normalize.

Context `{Runtime}.

Lemma list_history_normalize_lookup (doc : document) (k : string) :
  list_history_normalize doc !! k = rendered k <$> doc !! k.
Proof.
  unfold list_history_normalize, rendered.
  change (fun (d : document) (kv : string * pyval) =>
            if has_isoformat kv.2 then <[kv.1 := call_isoformat kv.2]> d else d)
    with render_step.
  pose proof (foldl_render_step_items doc) as Hloop.
  destruct (foldl render_step doc (map_to_list doc) !! "_id") as [v|] eqn:Hid.
  - rewrite Hloop in Hid.
    destruct (doc !! "_id") as [v0|] eqn:Hid0; simplify_eq/=.
    case_decide as Hk; subst.
    + by rewrite lookup_insert_eq, Hid0.
    + by rewrite lookup_insert_ne, Hloop.
  - rewrite Hloop in Hid. rewrite Hloop.
    destruct (doc !! "_id") as [v0|] eqn:Hid0; simplify_eq/=.
    case_decide as Hk; subst; [by rewrite Hid0|done].
Qed.

Lemma get_collections_normalize_eq (doc : document) :
  get_collections_normalize doc = list_history_normalize doc.
Proof. reflexivity. Qed.

(** C7: in a document returned by [GET /history] or [GET /collections]
    every field that holds a timestamp is its ISO-8601 string
    ([YYYY-MM-DDThh:mm:ss], with [.ffffff] when there are microseconds),
    the store-generated identifier [_id] is its string form (the 24
    lower-case hexadecimal digits that read back as the identifier),
    every other field is the stored one, and no field is added or
    dropped. *)
Theorem normalize_renders_timestamps_and_id (doc : document) (k : string) :
  (forall (helpers : Helpers) (N : Z) (w : World),
     exists docs,
       (@list_history _ helpers N w).1
       = inr (reverse (list_history_normalize <$> docs)))
  /\ (forall (helpers : Helpers) (w : World),
        exists docs,
          (@get_collections _ helpers w).1
          = inr (get_collections_normalize <$> docs))
  /\ get_collections_normalize doc = list_history_normalize doc
  /\ (forall t,
        k <> "_id" -> doc !! k = Some (VDatetime t) ->
        list_history_normalize doc !! k = Some (VStr (isoformat t)))
  /\ (forall t,
        valid_datetime t ->
        k <> "_id" -> doc !! k = Some (VDatetime t) ->
        list_history_normalize doc !! k = Some (VStr (iso8601 t)))
  /\ (forall o,
        doc !! "_id" = Some (VObjectId o) ->
        list_history_normalize doc !! "_id" = Some (VStr (hexlify o)))
  /\ (forall o,
        length o = 12%nat -> Forall (fun b => (b < 256)%N) o ->
        doc !! "_id" = Some (VObjectId o) ->
        exists s,
          list_history_normalize doc !! "_id" = Some (VStr s)
          /\ String.length s = 24%nat
          /\ all_chars lower_hex s = true
          /\ ObjectId_of_str s = inr o)
  /\ (forall v,
        doc !! "_id" = Some v ->
        list_history_normalize doc !! "_id"
        = Some (VStr (py_str (call_isoformat v))))
  /\ (forall v,
        k <> "_id" -> doc !! k = Some v -> has_isoformat v = false ->
        list_history_normalize doc !! k = Some v)
  /\ (doc !! k = None -> list_history_normalize doc !! k = None).
Proof.
  repeat split.
  - intros helpers N w. unfold list_history, bind, try_except, with_db, ret.
    destruct (get_documents "requesthistory" (Some N) (db w)) as [e|docs];
      simpl; [by exists []|by exists docs].
  - intros helpers w. unfold get_collections, bind, try_except, with_db, ret.
    destruct (get_documents "collection" None (db w)) as [e|docs];
      simpl; [by exists []|by exists docs].
  - intros t Hk Hdoc. rewrite list_history_normalize_lookup, Hdoc.
    unfold rendered. by case_decide.
  - intros t Ht Hk Hdoc. rewrite list_history_normalize_lookup, Hdoc.
    unfold rendered. case_decide; [done|]. simpl.
    by rewrite (isoformat_iso8601 t Ht).
  - intros o Hdoc. by rewrite list_history_normalize_lookup, Hdoc.
  - intros o Hlen Hbytes Hdoc. exists (hexlify o).
    rewrite list_history_normalize_lookup, Hdoc. split; [done|].
    rewrite hexlify_length, Hlen. split; [done|].
    split; [by apply hexlify_lower_hex|by apply ObjectId_of_str_hexlify].
  - intros v Hdoc. by rewrite list_history_normalize_lookup, Hdoc.
  - intros v Hk Hdoc Hv. rewrite list_history_normalize_lookup, Hdoc.
    unfold rendered. case_decide; [done|]. by destruct v.
  - intros Hdoc. by rewrite list_history_normalize_lookup, Hdoc.
Qed.

End Normalize.

(* ===================================================================== *)
(** ** Adding an item to a collection *)
(* ===================================================================== *)

Lemma world_eta (w : World) : MkWorld (db w) (sent w) (tick w) = w.
Proof. by destruct w. Qed.

Section AddItem.

Context `{Runtime}.

(** Without a store handle the handler raises at once. *)
Lemma add_item_no_handle (body : AddItemBody.t) (w : World) :
  db w = None ->
  add_item_to_collection body w
  = (inl (HTTPException 500 "Database not available"), w).
Proof.
  intros Hdb. unfold add_item_to_collection, bind, get_db. by rewrite Hdb.
Qed.

(** An identifier that [ObjectId] refuses. *)
Lemma add_item_invalid_id (body : AddItemBody.t) (w : World) d e :
  db w = Some d ->
  ObjectId_of_str (AddItemBody.collection_id body) = inl e ->
  add_item_to_collection body w = (inl (HTTPException 500 (exn_str e)), w).
Proof.
  intros Hdb Hoid.
  unfold add_item_to_collection, bind, get_db, try_except, lift_exn.
  by rewrite Hdb, Hoid.
Qed.

(** An update the store refuses. *)
Lemma add_item_update_raises (body : AddItemBody.t) (w : World) d oid e :
  db w = Some d ->
  ObjectId_of_str (AddItemBody.collection_id body) = inr oid ->
  update_one_push "collection" oid "items" (pushed_item body) d = inl e ->
  add_item_to_collection body w = (inl (HTTPException 500 (exn_str e)), w).
Proof.
  intros Hdb Hoid Hupd. unfold pushed_item in Hupd.
  unfold add_item_to_collection, bind, get_db, try_except, lift_exn.
  rewrite Hdb, Hoid. unfold ret, raise. cbv beta iota. by rewrite Hupd.
Qed.

(** An update the store accepts. *)
Lemma add_item_update_returns (body : AddItemBody.t) (w : World) d oid d' :
  db w = Some d ->
  ObjectId_of_str (AddItemBody.collection_id body) = inr oid ->
  update_one_push "collection" oid "items" (pushed_item body) d = inr d' ->
  add_item_to_collection body w
  = (inr "Item added", MkWorld (Some d') (sent w) (tick w)).
Proof.
  intros Hdb Hoid Hupd. unfold pushed_item in Hupd.
  unfold add_item_to_collection, bind, get_db, try_except, lift_exn.
  rewrite Hdb, Hoid. unfold ret, raise. cbv beta iota. by rewrite Hupd.
Qed.

(** C8 (amended): [POST /collections/add-item] fails with a server error
    (500) when there is no store handle, when the store does not answer,
    and when [collection_id] is not a well-formed identifier.  When the
    identifier is well formed and no collection has it, the call reports
    success and leaves the store as it was. *)
Theorem add_item_failure_modes (body : AddItemBody.t) (w : World) :
  (db w = None ->
   add_item_to_collection body w
   = (inl (HTTPException 500 "Database not available"), w))
  /\ (forall d,
        db w = Some d -> online d = false ->
        exists detail,
          add_item_to_collection body w = (inl (HTTPException 500 detail), w))
  /\ (forall d e,
        db w = Some d ->
        ObjectId_of_str (AddItemBody.collection_id body) = inl e ->
        add_item_to_collection body w = (inl (HTTPException 500 (exn_str e)), w))
  /\ (forall d oid,
        db w = Some d -> online d = true ->
        ObjectId_of_str (AddItemBody.collection_id body) = inr oid ->
        list_find (has_id oid) (coll d "collection") = None ->
        add_item_to_collection body w = (inr "Item added", w)).
Proof.
  repeat split.
  - apply add_item_no_handle.
  - intros d Hdb Hoff.
    destruct (ObjectId_of_str (AddItemBody.collection_id body)) as [e|oid] eqn:Hoid.
    + eexists. by eapply add_item_invalid_id.
    + eexists. eapply add_item_update_raises; [done..|].
      unfold update_one_push. by rewrite Hoff.
  - intros d e. apply add_item_invalid_id.
  - intros d oid Hdb Hon Hoid Hfind.
    rewrite (add_item_update_returns body w d oid d Hdb Hoid).
    + by rewrite <- Hdb, world_eta.
    + unfold update_one_push. by rewrite Hon, Hfind.
Qed.

Lemma coll_set_coll_eq (d : Database) (name : string) (docs : list document) :
  coll (set_coll d name docs) name = docs.
Proof. unfold coll, set_coll. simpl. by rewrite lookup_insert_eq. Qed.

Lemma coll_set_coll_ne (d : Database) (name name' : string) (docs : list document) :
  name <> name' -> coll (set_coll d name docs) name' = coll d name'.
Proof. intros Hne. unfold coll, set_coll. simpl. by rewrite lookup_insert_ne. Qed.

(** What [$push] leaves of a document. *)
Lemma push_inr (field : string) (v : pyval) (doc doc' : document) :
  push field v doc = inr doc' ->
  exists its,
    (doc !! field = Some (VList its) \/ (doc !! field = None /\ its = []))
    /\ doc' = <[field := VList (its ++ [v])]> doc.
Proof.
  unfold push. intros Hpush.
  destruct (doc !! field) as [[]|] eqn:Hf; simplify_eq.
  - eexists. split; [by left|done].
  - exists []. split; [by right|done].
Qed.

(** C10: a successful [POST /collections/add-item] whose identifier
    resolves to a stored collection makes that collection's [items] one
    element longer: the new last element is the submitted title and
    request, the earlier items keep their places, the other fields of the
    collection, the other collections and everything else in the store
    stay as they were. *)
Theorem add_item_appends_one_item (body : AddItemBody.t) (w w' : World)
    (d : Database) (oid : ObjectId) (i : nat) (doc : document) (msg : string) :
  add_item_to_collection body w = (inr msg, w') ->
  db w = Some d ->
  ObjectId_of_str (AddItemBody.collection_id body) = inr oid ->
  list_find (has_id oid) (coll d "collection") = Some (i, doc) ->
  let item := VDict (<["title" := VStr (AddItemBody.title body)]>
                     (<["request" := VDict (RequestConfig.dump (AddItemBody.request body))]> ∅)) in
  exists (d' : Database) (its : list pyval) (doc' : document),
    db w' = Some d'
    /\ (doc !! "items" = Some (VList its) \/ (doc !! "items" = None /\ its = []))
    /\ coll d' "collection" !! i = Some doc'
    /\ doc' !! "items" = Some (VList (its ++ [item]))
    /\ (forall k, k <> "items" -> doc' !! k = doc !! k)
    /\ length (coll d' "collection") = length (coll d "collection")
    /\ (forall j, j <> i -> coll d' "collection" !! j = coll d "collection" !! j)
    /\ (forall name, name <> "collection" -> coll d' name = coll d name).
Proof.
  intros Hrun Hdb Hoid Hfind item.
  destruct (update_one_push "collection" oid "items" (pushed_item body) d)
    as [e|d'] eqn:Hupd.
  { rewrite (add_item_update_raises body w d oid e Hdb Hoid Hupd) in Hrun.
    discriminate. }
  rewrite (add_item_update_returns body w d oid d' Hdb Hoid Hupd) in Hrun.
  simplify_eq. unfold update_one_push in Hupd.
  destruct (online d); [|discriminate]. rewrite Hfind in Hupd.
  destruct (push "items" (pushed_item body) doc) as [e|doc'] eqn:Hpush;
    simplify_eq.
  apply push_inr in Hpush as (its & Hits & ->).
  apply list_find_Some in Hfind as (Hi & _ & _).
  pose proof (lookup_lt_Some _ _ _ Hi) as Hlt.
  exists (set_coll d "collection"
            (<[i := <["items" := VList (its ++ [pushed_item body])]> doc]>
               (coll d "collection"))), its,
         (<["items" := VList (its ++ [pushed_item body])]> doc).
  rewrite coll_set_coll_eq. repeat split.
  - done.
  - by apply list_lookup_insert_eq.
  - by rewrite lookup_insert_eq.
  - intros k Hk. by rewrite lookup_insert_ne.
  - by rewrite length_insert.
  - intros j Hj. by rewrite list_lookup_insert_ne.
  - intros name Hname. by rewrite coll_set_coll_ne.
Qed.

End AddItem.

(** C8 (as stated, refuted): the identifier is well formed and no
    collection has it, yet the call reports success. *)
Lemma add_item_unknown_id_reports_success :
  @ObjectId_of_str example_runtime (AddItemBody.collection_id add_ping) = inr (fresh_id 0)
  /\ list_find (has_id (fresh_id 0)) (coll Examples.empty_store "collection") = None
  /\ @add_item_to_collection example_runtime add_ping Examples.world0
     = (inr "Item added", Examples.world0).
Proof. repeat split. Qed.

Lemma add_item_failure_modes_witness :
  @add_item_to_collection example_runtime add_ping Examples.world_no_db
  = (inl (HTTPException 500 "Database not available"), Examples.world_no_db)
  /\ (exists detail,
        @add_item_to_collection example_runtime add_ping Examples.world_offline
        = (inl (HTTPException 500 detail), Examples.world_offline))
  /\ @add_item_to_collection example_runtime add_ping Examples.world0
     = (inr "Item added", Examples.world0).
Proof.
  split; [|split].
  - apply (proj1 (@add_item_failure_modes example_runtime add_ping Examples.world_no_db)).
    reflexivity.
  - apply (proj1 (proj2 (@add_item_failure_modes example_runtime add_ping Examples.world_offline))
             Examples.offline_store); reflexivity.
  - apply (proj2 (proj2 (proj2 (@add_item_failure_modes example_runtime add_ping Examples.world0)))
             Examples.empty_store (fresh_id 0)); reflexivity.
Defined.

Lemma add_item_appends_one_item_witness :
  exists (d' : Database) (its : list pyval) (doc' : document),
    db (@add_item_to_collection example_runtime add_ping world_smoke).2 = Some d'
    /\ (smoke_doc !! "items" = Some (VList its)
        \/ (smoke_doc !! "items" = None /\ its = []))
    /\ coll d' "collection" !! 0%nat = Some doc'
    /\ doc' !! "items" = Some (VList (its ++ [ping_item]))
    /\ (forall k, k <> "items" -> doc' !! k = smoke_doc !! k)
    /\ length (coll d' "collection") = length (coll smoke_store "collection")
    /\ (forall j, j <> 0%nat ->
          coll d' "collection" !! j = coll smoke_store "collection" !! j)
    /\ (forall name, name <> "collection" -> coll d' name = coll smoke_store name).
Proof.
  apply (@add_item_appends_one_item example_runtime add_ping world_smoke
           (@add_item_to_collection example_runtime add_ping world_smoke).2
           smoke_store (fresh_id 0) 0%nat smoke_doc "Item added");
    reflexivity.
Defined.

Lemma normalize_witness :
  @list_history_normalize example_runtime stamped_doc !! "created_at"
  = Some (VStr "2024-03-09T18:05:00")
  /\ @list_history_normalize example_runtime stamped_doc !! "_id"
     = Some (VStr "000000000000000000000007")
  /\ (exists s,
        @list_history_normalize example_runtime stamped_doc !! "_id" = Some (VStr s)
        /\ String.length s = 24%nat
        /\ all_chars lower_hex s = true
        /\ @ObjectId_of_str example_runtime s = inr (fresh_id 7))
  /\ @list_history_normalize example_runtime stamped_doc !! "name"
     = Some (VStr "Smoke Tests")
  /\ @list_history_normalize example_runtime stamped_doc !! "items" = None.
Proof.
  split; [|split; [|split; [|split]]].
  - destruct (@normalize_renders_timestamps_and_id example_runtime stamped_doc
                "created_at") as (_ & _ & _ & _ & Hiso & _).
    apply (Hiso (Datetime 2024 3 9 18 5 0 0)).
    + unfold valid_datetime. simpl. lia.
    + discriminate.
    + reflexivity.
  - destruct (@normalize_renders_timestamps_and_id example_runtime stamped_doc
                "_id") as (_ & _ & _ & _ & _ & Hid & _).
    apply (Hid (fresh_id 7)). reflexivity.
  - destruct (@normalize_renders_timestamps_and_id example_runtime stamped_doc
                "_id") as (_ & _ & _ & _ & _ & _ & Hid & _).
    apply (Hid (fresh_id 7)).
    + reflexivity.
    + repeat constructor.
    + reflexivity.
  - destruct (@normalize_renders_timestamps_and_id example_runtime stamped_doc
                "name") as (_ & _ & _ & _ & _ & _ & _ & _ & Hother & _).
    apply Hother; [discriminate|reflexivity|reflexivity].
  - destruct (@normalize_renders_timestamps_and_id example_runtime stamped_doc
                "items") as (_ & _ & _ & _ & _ & _ & _ & _ & _ & Habsent).
    apply Habsent. reflexivity.
Defined.

(* ===================================================================== *)
(** ** Runs *)
(* ===================================================================== *)

(** [GET /history?limit=2] over three stored records: the two newest,
    newest first. *)
Example list_history_limit_2 :
  (@list_history example_runtime SpecHelpers 2 world_three).1
  = inr [ ({[ "n" := VInt 3 ]} : document); {[ "n" := VInt 2 ]} ].
Proof. reflexivity. Qed.

(** A saved proxy call followed by [GET /history?limit=1]: one record,
    with the descriptor and the status of the call. *)
Example proxy_then_history :
  let w := (@proxy_request (env_answering resp_text) example_runtime SpecHelpers
              ping world0).2 in
  exists rec,
    (@list_history example_runtime SpecHelpers 1 w).1 = inr [rec]
    /\ rec !! "request" = Some (VDict (RequestConfig.dump (descriptor_of ping)))
    /\ rec !! "response_status" = Some (VInt 200)
    /\ rec !! "response_body" = Some (VStr "pong")
    /\ rec !! "_id" = Some (VStr "000000000000000000000000").
Proof. eexists. repeat split. Qed.

(** A proxy call with [save = false] leaves the history empty. *)
Example proxy_nosave_then_history :
  let w := (@proxy_request (env_answering resp_text) example_runtime SpecHelpers
              ping_nosave world0).2 in
  (@list_history example_runtime SpecHelpers 50 w).1 = inr [].
Proof. reflexivity. Qed.

(** [POST /collections] with "Smoke Tests", then [GET /collections]. *)
Example create_then_get_collections :
  exists c,
    (@get_collections example_runtime SpecHelpers world_smoke).1 = inr [c]
    /\ c !! "name" = Some (VStr "Smoke Tests")
    /\ c !! "items" = Some (VList []).
Proof. eexists. repeat split. Qed.

(** Adding "Ping" to that collection, then [GET /collections]. *)
Example add_item_then_get_collections :
  let w := (@add_item_to_collection example_runtime add_ping world_smoke).2 in
  exists c,
    (@get_collections example_runtime SpecHelpers w).1 = inr [c]
    /\ c !! "name" = Some (VStr "Smoke Tests")
    /\ c !! "items" = Some (VList [ping_item]).
Proof. eexists. repeat split. Qed.

(** An identifier that is not 24 hexadecimal digits is refused, with the
    library's text. *)
Example add_item_malformed_id `{Runtime} :
  add_item_to_collection (AddItemBody.Make "smoke" "Ping" ping_descriptor) world_smoke
  = (inl (HTTPException 500
            (py_repr (VStr "smoke")
             ++ " is not a valid ObjectId, it must be a 12-byte input or a 24-character hex string")),
     world_smoke).
Proof. reflexivity. Qed.

(** An exception of the outbound call that is no [RequestException] is
    not caught: it reaches the caller as it is. *)
Example proxy_unencodable_header :
  (@proxy_request env_unencodable example_runtime SpecHelpers ping world0).1
  = inl (ValueError "'latin-1' codec can't encode character").
Proof. reflexivity. Qed.

(** A string body travels as [data], a dict body as [json]. *)
Example outbound_call_raw :
  OutboundCall.data (outbound_call post_raw) = Some "hello"
  /\ OutboundCall.json (outbound_call post_raw) = None.
Proof. done. Qed.

(* ===================================================================== *)
(** ** Validation of request descriptors *)
(* ===================================================================== *)

Lemma str_dict_dump (m : gmap string string) :
  str_dict (dump_str_dict m) = Some m.
Proof.
  unfold str_dict, dump_str_dict. rewrite bool_decide_eq_true_2.
  - f_equal. apply map_eq. intros k. rewrite lookup_omap, lookup_fmap.
    by destruct (m !! k).
  - intros k x Hk. rewrite lookup_fmap in Hk.
    destruct (m !! k); by simplify_eq/=.
Qed.

Lemma str_dict_Some (v : pyval) (m : gmap string string) :
  str_dict v = Some m -> v = dump_str_dict m.
Proof.
  unfold str_dict, dump_str_dict. destruct v; try discriminate.
  case_bool_decide as Hall; [|discriminate]. intros [= <-]. f_equal.
  apply map_eq. intros k. rewrite lookup_fmap, lookup_omap.
  destruct (d !! k) as [x|] eqn:Hk; [|done]. simpl.
  specialize (Hall k x Hk). by destruct x.
Qed.

Lemma HttpMethod_validate_Some (s : string) (m : HttpMethod) :
  HttpMethod_validate s = Some m -> s = HttpMethod_str m.
Proof.
  unfold HttpMethod_validate.
  repeat (match goal with
          | |- context [String.eqb s ?l] => destruct (String.eqb_spec s l)
          end; [by intros [= <-]|]).
  discriminate.
Qed.

(** X1: the method literal is exact: a string validates to a method
    precisely when it is that method's upper-case name, so that the text
    of a validated method validates back to it and nothing else (no other
    case, no surrounding space) is accepted. *)
Theorem HttpMethod_validate_exact (s : string) (m : HttpMethod) :
  HttpMethod_validate s = Some m <-> s = HttpMethod_str m.
Proof.
  split; [apply HttpMethod_validate_Some|].
  intros ->. apply HttpMethod_validate_str.
Qed.

Lemma HttpMethod_validate_exact_witness :
  HttpMethod_validate "PATCH" = Some PATCH
  /\ "DELETE" = HttpMethod_str DELETE.
Proof.
  split.
  - apply (proj2 (HttpMethod_validate_exact "PATCH" PATCH)). reflexivity.
  - apply (proj1 (HttpMethod_validate_exact "DELETE" DELETE)). reflexivity.
Defined.

Lemma Body_validate_dump (b : option Body) :
  Body_validate (Body_dump b) = Some b.
Proof. by destruct b as [[]|]. Qed.

Lemma Body_validate_Some (v : pyval) (b : option Body) :
  Body_validate v = Some b -> Body_dump b = v.
Proof. destruct v; simpl; intros [= <-]; done. Qed.

(** X2: validation against [Optional[Union[Dict[str, Any], str]]] neither
    coerces nor loses anything: a value that validates dumps back to
    itself, and the dump of a body validates to that body. *)
Theorem Body_validate_dump_round_trip (v : pyval) (b : option Body) :
  Body_validate (Body_dump b) = Some b
  /\ (Body_validate v = Some b -> Body_dump b = v).
Proof.
  split; [apply Body_validate_dump|apply Body_validate_Some].
Qed.

Lemma Body_validate_dump_witness :
  Body_validate (Body_dump (Some (BodyStr "hello"))) = Some (Some (BodyStr "hello"))
  /\ Body_dump (Some (BodyDict ∅)) = VDict ∅.
Proof.
  split.
  - apply (proj1 (Body_validate_dump_round_trip VNone (Some (BodyStr "hello")))).
  - apply (proj2 (Body_validate_dump_round_trip (VDict ∅) (Some (BodyDict ∅)))).
    reflexivity.
Defined.

(** X3: dumping a request descriptor and validating the dump gives the
    descriptor back: what is stored of a request can be read again
    without loss. *)
Theorem RequestConfig_validate_dump (r : RequestConfig.t) :
  RequestConfig_validate (VDict (RequestConfig.dump r)) = inr r.
Proof.
  destruct (RequestConfig_dump_lookup r) as (Hu & Hm & Hh & Hp & Hb).
  unfold RequestConfig_validate, url_field, method_field, dict_field, body_field.
  rewrite Hu, Hm, Hh, Hp, Hb, !str_dict_dump, Body_validate_dump.
  simpl. rewrite HttpMethod_validate_str. by destruct r.
Qed.

(** X4: a dict that validates as a request descriptor is read as it
    stands: the url is the string under ["url"], which has to be there;
    method, headers, params and body are the entries of the dict when
    present, and [GET], the empty dict, the empty dict and no body when
    absent. *)
Theorem RequestConfig_validate_sound (v : pyval) (r : RequestConfig.t) :
  RequestConfig_validate v = inr r ->
  exists d,
    v = VDict d
    /\ d !! "url" = Some (VStr (RequestConfig.url r))
    /\ match d !! "method" with
       | Some x => x = VStr (HttpMethod_str (RequestConfig.method r))
       | None => RequestConfig.method r = GET
       end
    /\ match d !! "headers" with
       | Some x => x = dump_str_dict (RequestConfig.headers r)
       | None => RequestConfig.headers r = ∅
       end
    /\ match d !! "params" with
       | Some x => x = dump_str_dict (RequestConfig.params r)
       | None => RequestConfig.params r = ∅
       end
    /\ match d !! "body" with
       | Some x => x = Body_dump (RequestConfig.body r)
       | None => RequestConfig.body r = None
       end.
Proof.
  unfold RequestConfig_validate. destruct v; try discriminate.
  destruct (url_field d) as [u|] eqn:Hu; [|discriminate].
  destruct (method_field d) as [m|] eqn:Hm; [|discriminate].
  destruct (dict_field "headers" d) as [h|] eqn:Hh; [|discriminate].
  destruct (dict_field "params" d) as [p|] eqn:Hp; [|discriminate].
  destruct (body_field d) as [b|] eqn:Hb; [|discriminate].
  intros [= <-]. exists d. simpl. split; [done|].
  unfold url_field, method_field, dict_field, body_field in *.
  repeat split.
  - destruct (d !! "url") as [[]|]; by simplify_eq/=.
  - destruct (d !! "method") as [x|]; [|by simplify_eq].
    destruct x; simplify_eq/=. f_equal. by apply HttpMethod_validate_Some.
  - destruct (d !! "headers") as [x|]; [|by simplify_eq].
    by apply str_dict_Some.
  - destruct (d !! "params") as [x|]; [|by simplify_eq].
    by apply str_dict_Some.
  - destruct (d !! "body") as [x|]; [|by simplify_eq].
    symmetry. by apply Body_validate_Some.
Qed.

Lemma RequestConfig_validate_sound_witness :
  exists d,
    VDict (<["url" := VStr "http://target.test/ping"]> (<["note" := VInt 1]> ∅))
    = VDict d
    /\ d !! "url" = Some (VStr (RequestConfig.url ping_descriptor))
    /\ match d !! "method" with
       | Some x => x = VStr (HttpMethod_str (RequestConfig.method ping_descriptor))
       | None => RequestConfig.method ping_descriptor = GET
       end
    /\ match d !! "headers" with
       | Some x => x = dump_str_dict (RequestConfig.headers ping_descriptor)
       | None => RequestConfig.headers ping_descriptor = ∅
       end
    /\ match d !! "params" with
       | Some x => x = dump_str_dict (RequestConfig.params ping_descriptor)
       | None => RequestConfig.params ping_descriptor = ∅
       end
    /\ match d !! "body" with
       | Some x => x = Body_dump (RequestConfig.body ping_descriptor)
       | None => RequestConfig.body ping_descriptor = None
       end.
Proof.
  apply (RequestConfig_validate_sound
           (VDict (<["url" := VStr "http://target.test/ping"]>
                   (<["note" := VInt 1]> ∅)))
           ping_descriptor).
  reflexivity.
Defined.

(* ===================================================================== *)
(** ** More on the proxy endpoint *)
(* ===================================================================== *)

Lemma outbound_call_descriptor (p1 p2 : ExecuteRequestBody.t) :
  descriptor_of p1 = descriptor_of p2 -> outbound_call p1 = outbound_call p2.
Proof.
  unfold descriptor_of, outbound_call. intros [= Hu Hm Hh Hp Hb].
  by rewrite Hu, Hm, Hh, Hp, Hb.
Qed.

Lemma RequestHistory_dump_lookup (h : RequestHistory.t) :
  RequestHistory.dump h !! "response_time_ms"
  = Some (dump_opt VInt (RequestHistory.response_time_ms h))
  /\ RequestHistory.dump h !! "response_headers"
     = Some (dump_str_dict (RequestHistory.response_headers h))
  /\ RequestHistory.dump h !! "response_body"
     = Some (Body_dump (RequestHistory.response_body h))
  /\ RequestHistory.dump h !! "_id" = None.
Proof. unfold RequestHistory.dump. by simplify_map_eq. Qed.

Section ProxyMore.

Context (env : Env) `{Runtime}.

(** The three ways a proxy call ends. *)
Lemma proxy_request_result `{Helpers} (payload : ExecuteRequestBody.t) (w : World) :
  (proxy_request env payload w).1
  = match send env (outbound_call payload) with
    | inl e => inl (surfaced e)
    | inr resp =>
        match Body_validate (response_body_of resp) with
        | None => inl (ValidationError "2 validation errors for RequestHistory")
        | Some _ => inr (result_of env w resp)
        end
    end.
Proof.
  destruct (send env (outbound_call payload)) as [msg|resp] eqn:Hsend.
  - by rewrite (proxy_request_transport env payload w msg Hsend).
  - destruct (Body_validate (response_body_of resp)) as [b|] eqn:Hval.
    + by rewrite (proxy_request_returns env payload w resp b Hsend Hval).
    + by rewrite (proxy_request_rejected env payload w resp Hsend Hval).
Qed.


(** X6: what the caller of the proxy gets does not depend on [save], on
    the state of the store or on the history helper: two calls with the
    same descriptor at the same clock position end the same way. *)
Theorem proxy_answer_ignores_save_and_store (h1 h2 : Helpers)
    (p1 p2 : ExecuteRequestBody.t) (w1 w2 : World) :
  descriptor_of p1 = descriptor_of p2 ->
  tick w1 = tick w2 ->
  (@proxy_request env _ h1 p1 w1).1 = (@proxy_request env _ h2 p2 w2).1.
Proof.
  intros Hdesc Htick. rewrite !proxy_request_result.
  rewrite (outbound_call_descriptor p1 p2 Hdesc).
  unfold result_of, elapsed_ms_of. by rewrite Htick.
Qed.

(** X7: when the target answers and its body is not JSON, or is a JSON
    object, string or null, the call returns the target's status, its
    headers, and as body the decoded JSON, or the text when there is no
    JSON; the time is not negative as long as the clock did not run
    backwards during the call. *)
Theorem proxy_returns_status_headers_body `{Helpers}
    (payload : ExecuteRequestBody.t) (w : World) (resp : Response.t) :
  send env (outbound_call payload) = inr resp ->
  (clock env (tick w) <= clock env (S (tick w)))%Q ->
  (Response.json resp = None
   \/ Response.json resp = Some VNone
   \/ (exists d, Response.json resp = Some (VDict d))
   \/ (exists s, Response.json resp = Some (VStr s))) ->
  exists r,
    (proxy_request env payload w).1 = inr r
    /\ ProxyResult.status r = Response.status_code resp
    /\ 0 <= ProxyResult.time_ms r
    /\ ProxyResult.headers r = Response.headers resp
    /\ ProxyResult.body r
       = match Response.json resp with
         | Some j => j
         | None => VStr (Response.text resp)
         end.
Proof.
  intros Hsend Hclock Hbody. exists (result_of env w resp).
  rewrite proxy_request_result, Hsend. split.
  - unfold response_body_of.
    destruct Hbody as [->|[->|[[d ->]|[s ->]]]]; done.
  - repeat split. by apply elapsed_ms_nonneg.
Qed.

(** X8: the outbound call carries the payload's method (its upper-case
    literal), url, headers and query parameters as they are, and a
    timeout of 30 seconds; it is the only call issued. *)
Theorem proxy_outbound_call_fields `{Helpers} (payload : ExecuteRequestBody.t) (w : World) :
  exists call,
    sent (proxy_request env payload w).2 = (sent w ++ [call])%list
    /\ OutboundCall.method call = HttpMethod_str (ExecuteRequestBody.method payload)
    /\ OutboundCall.url call = ExecuteRequestBody.url payload
    /\ OutboundCall.headers call = ExecuteRequestBody.headers payload
    /\ OutboundCall.params call = ExecuteRequestBody.params payload
    /\ OutboundCall.timeout call = 30.
Proof.
  exists (outbound_call payload). split; [|done].
  destruct (send env (outbound_call payload)) as [msg|resp] eqn:Hsend.
  - by rewrite (proxy_request_transport env payload w msg Hsend).
  - destruct (Body_validate (response_body_of resp)) as [b|] eqn:Hval.
    + by rewrite (proxy_request_returns env payload w resp b Hsend Hval).
    + by rewrite (proxy_request_rejected env payload w resp Hsend Hval).
Qed.

(** X9: with the store helper as the spec describes it and the store
    reachable, the record a saving proxy call appends holds what the
    caller was given: the same time, headers and body, under a
    store-generated identifier. *)
Theorem proxy_record_matches_result (payload : ExecuteRequestBody.t) (w : World)
    (d : Database) (r : ProxyResult.t) :
  let out := @proxy_request env _ SpecHelpers payload w in
  ExecuteRequestBody.save payload = true ->
  db w = Some d -> online d = true ->
  out.1 = inr r ->
  exists rec,
    history (db out.2) = (history (db w) ++ [rec])%list
    /\ rec !! "response_time_ms" = Some (VInt (ProxyResult.time_ms r))
    /\ rec !! "response_headers" = Some (dump_str_dict (ProxyResult.headers r))
    /\ rec !! "response_body" = Some (ProxyResult.body r)
    /\ rec !! "_id" = Some (VObjectId (fresh_id (next_id d))).
Proof.
  intros out Hsave Hdb Hon Hr. subst out.
  rewrite proxy_request_result in Hr.
  destruct (send env (outbound_call payload)) as [msg|resp] eqn:Hsend;
    [discriminate|].
  destruct (Body_validate (response_body_of resp)) as [b|] eqn:Hval;
    [|discriminate].
  rewrite (@proxy_request_returns env _ SpecHelpers payload w resp b Hsend Hval).
  simplify_eq. cbn [snd db]. rewrite Hsave.
  cbn [create_document SpecHelpers]. rewrite spec_create_document_history.
  rewrite Hdb, Hon. eexists. split; [done|].
  cbn [model_dump RequestHistory_model].
  destruct (RequestHistory_dump_lookup (history_doc_of env w payload resp b))
    as (Ht & Hh & Hb & _).
  rewrite !lookup_insert_ne by done. rewrite Ht, Hh, Hb, lookup_insert_eq.
  repeat split. simpl. f_equal.
  by apply Body_validate_Some.
Qed.

End ProxyMore.

(* ===================================================================== *)
(** ** More on the read endpoints and on normalisation *)
(* ===================================================================== *)

Section ReadEndpoints.

Context `{Runtime}.

(** X10: [GET /history] never fails and changes nothing: when the helper
    raises, whatever the exception, the answer is the empty list;
    otherwise it is the helper's documents, normalised, in reverse
    order. *)
Theorem list_history_swallows_store_errors `{Helpers} (N : Z) (w : World) :
  exists docs,
    list_history N w = (inr (reverse (list_history_normalize <$> docs)), w)
    /\ length (reverse (list_history_normalize <$> docs)) = length docs
    /\ docs = match get_documents "requesthistory" (Some N) (db w) with
              | inr ds => ds
              | inl _ => []
              end.
Proof.
  unfold list_history, bind, try_except, with_db, ret.
  destruct (get_documents "requesthistory" (Some N) (db w)) as [e|ds];
    simpl; rewrite world_eta.
  - by exists [].
  - exists ds. by rewrite length_reverse, length_fmap.
Qed.

(** X11: [GET /collections] never fails and changes nothing: when the
    helper raises the answer is the empty list; otherwise it is the
    helper's documents, normalised, in the helper's order (no reversal, no
    limit). *)
Theorem get_collections_swallows_store_errors `{Helpers} (w : World) :
  exists docs,
    get_collections w = (inr (get_collections_normalize <$> docs), w)
    /\ (forall i, (get_collections_normalize <$> docs) !! i
                  = get_collections_normalize <$> docs !! i)
    /\ docs = match get_documents "collection" None (db w) with
              | inr ds => ds
              | inl _ => []
              end.
Proof.
  unfold get_collections, bind, try_except, with_db, ret.
  destruct (get_documents "collection" None (db w)) as [e|ds];
    simpl; rewrite world_eta.
  - exists []. by repeat split.
  - exists ds. repeat split. intros i. apply list_lookup_fmap.
Qed.

Lemma rendered_idempotent (k : string) (v : pyval) :
  rendered k (rendered k v) = rendered k v.
Proof. unfold rendered. case_decide; by destruct v. Qed.

Lemma rendered_no_isoformat (k : string) (v : pyval) :
  has_isoformat (rendered k v) = false.
Proof. unfold rendered. case_decide; by destruct v. Qed.

(** X12: normalising is idempotent: a document that went through
    [normalize] is left as it is by a second pass. *)
Theorem normalize_idempotent (doc : document) :
  list_history_normalize (list_history_normalize doc) = list_history_normalize doc
  /\ get_collections_normalize (get_collections_normalize doc)
     = get_collections_normalize doc.
Proof.
  assert (list_history_normalize (list_history_normalize doc)
          = list_history_normalize doc) as Hidem.
  { apply map_eq. intros k. rewrite !list_history_normalize_lookup.
    destruct (doc !! k); [|done]. simpl. by rewrite rendered_idempotent. }
  split; [done|]. by rewrite !get_collections_normalize_eq.
Qed.

(** X13: a normalised document has the keys of the stored one, and none
    of its fields holds a datetime any more. *)
Theorem normalize_leaves_no_datetime (doc : document) :
  dom (list_history_normalize doc) = dom doc
  /\ (forall k v, list_history_normalize doc !! k = Some v -> has_isoformat v = false)
  /\ dom (get_collections_normalize doc) = dom doc
  /\ (forall k v, get_collections_normalize doc !! k = Some v -> has_isoformat v = false).
Proof.
  assert (dom (list_history_normalize doc) = dom doc) as Hdom.
  { apply set_eq. intros k. rewrite !elem_of_dom, list_history_normalize_lookup.
    by rewrite fmap_is_Some. }
  assert (forall k v, list_history_normalize doc !! k = Some v ->
                      has_isoformat v = false) as Hno.
  { intros k v. rewrite list_history_normalize_lookup.
    destruct (doc !! k); [|done]. intros [= <-]. apply rendered_no_isoformat. }
  repeat split; [done|done|by rewrite get_collections_normalize_eq|].
  intros k v. rewrite get_collections_normalize_eq. apply Hno.
Qed.

End ReadEndpoints.

Lemma normalize_leaves_no_datetime_witness :
  has_isoformat (VStr (isoformat (Datetime 2024 3 9 18 5 0 0))) = false.
Proof.
  apply (proj1 (proj2 (@normalize_leaves_no_datetime example_runtime stamped_doc))
           "created_at").
  reflexivity.
Defined.

(* ===================================================================== *)
(** ** More on the collection endpoints *)
(* ===================================================================== *)

(** The two ways [create_collection] ends. *)
Lemma create_collection_eq `{Helpers} (body : CreateCollectionBody.t) (w : World) :
  let col := Collection.Make (CreateCollectionBody.name body)
               (CreateCollectionBody.description body) [] in
  let stored := create_document "collection" col (db w) in
  create_collection body w
  = (match stored.1 with
     | inr id => inr (id, "Collection created")
     | inl e => inl (HTTPException 500 (exn_str e))
     end,
     MkWorld stored.2 (sent w) (tick w)).
Proof.
  intros col stored. subst col stored.
  unfold create_collection, bind, try_except, with_db, ret, raise.
  match goal with
  | |- context [@create_document ?i ?A ?B ?n ?x ?d] =>
      by destruct (@create_document i A B n x d) as [[?|?] ?]
  end.
Qed.

(** X14: [POST /collections] hands the helper a collection with the name
    and description of the body and no items.  When the helper returns an
    identifier the answer is that identifier with the message; when it
    raises, whatever the exception, the caller gets a 500 whose detail is
    the exception's text, and no other exception. *)
Theorem create_collection_outcomes `{Helpers} (body : CreateCollectionBody.t) (w : World) :
  let col := Collection.Make (CreateCollectionBody.name body)
               (CreateCollectionBody.description body) [] in
  (exists id d',
     create_document "collection" col (db w) = (inr id, d')
     /\ create_collection body w
        = (inr (id, "Collection created"), MkWorld d' (sent w) (tick w)))
  \/ (exists e d',
        create_document "collection" col (db w) = (inl e, d')
        /\ create_collection body w
           = (inl (HTTPException 500 (exn_str e)), MkWorld d' (sent w) (tick w))).
Proof.
  intros col. subst col. rewrite create_collection_eq.
  match goal with
  | |- context [@create_document ?i ?A ?B ?n ?x ?d] =>
      destruct (@create_document i A B n x d) as [[e|id] d']
  end; [right|left]; by do 2 eexists.
Qed.

Lemma Collection_dump_lookup (c : Collection.t) :
  Collection.dump c !! "name" = Some (VStr (Collection.name c))
  /\ Collection.dump c !! "description"
     = Some (dump_opt VStr (Collection.description c))
  /\ Collection.dump c !! "items"
     = Some (VList ((fun i => VDict (CollectionItem.dump i)) <$> Collection.items c))
  /\ Collection.dump c !! "_id" = None.
Proof. unfold Collection.dump. by simplify_map_eq. Qed.

Section Collections.

Context `{Runtime}.

(** X15: with the store helper as the spec describes it and the store
    reachable, [POST /collections] followed by [GET /collections] lists
    the collections that were there, in their order, and then the new
    one: its name and description are the submitted ones, it has no
    items, and its [_id] is the identifier the creation returned. *)
Theorem create_then_get_collections_lists_it (body : CreateCollectionBody.t)
    (w : World) (d : Database) :
  db w = Some d -> online d = true ->
  exists id w' c,
    @create_collection SpecHelpers body w = (inr (id, "Collection created"), w')
    /\ (@get_collections _ SpecHelpers w').1
       = inr ((get_collections_normalize <$> coll d "collection") ++ [c])%list
    /\ c !! "name" = Some (VStr (CreateCollectionBody.name body))
    /\ c !! "description"
       = Some (dump_opt VStr (CreateCollectionBody.description body))
    /\ c !! "items" = Some (VList [])
    /\ c !! "_id" = Some (VStr id).
Proof.
  intros Hdb Hon.
  rewrite (@create_collection_eq SpecHelpers body w).
  cbn [create_document SpecHelpers]. unfold spec_create_document.
  rewrite Hdb, Hon. cbn [fst snd].
  set (col := Collection.Make _ _ _).
  set (doc := <["_id" := VObjectId (fresh_id (next_id d))]> (model_dump col)).
  exists (hexlify (fresh_id (next_id d))). eexists.
  exists (get_collections_normalize doc). split; [done|].
  destruct (Collection_dump_lookup col) as (Hn & Hd & Hi & _).
  split.
  - unfold get_collections, bind, try_except, with_db, ret.
    cbn [get_documents SpecHelpers spec_get_documents db online fst snd].
    unfold coll at 1. cbn [collections]. rewrite lookup_insert_eq. simpl.
    by rewrite fmap_app.
  - rewrite !get_collections_normalize_eq, !list_history_normalize_lookup.
    subst doc. cbn [model_dump Collection_model].
    rewrite !lookup_insert_ne by done. rewrite Hn, Hd, Hi, lookup_insert_eq.
    repeat split. simpl. unfold rendered. simpl.
    by destruct (CreateCollectionBody.description body).
Qed.

End Collections.

Section AddItemMore.

Context `{Runtime}.

Lemma has_id_insert_ne (oid : ObjectId) (k : string) (v : pyval) (doc : document) :
  k <> "_id" -> has_id oid (<[k := v]> doc) = has_id oid doc.
Proof. intros Hk. unfold has_id. by rewrite lookup_insert_ne. Qed.

(** Replacing the document found by one that still has the identifier
    leaves it the document found. *)
Lemma list_find_has_id_insert (oid : ObjectId) (l : list document) (i : nat)
    (doc doc' : document) :
  list_find (has_id oid) l = Some (i, doc) ->
  has_id oid doc' = has_id oid doc ->
  list_find (has_id oid) (<[i := doc']> l) = Some (i, doc').
Proof.
  intros Hfind Hid. apply list_find_Some in Hfind as (Hi & Hdoc & Hbefore).
  apply list_find_Some. split; [|split].
  - apply list_lookup_insert_eq. by eapply lookup_lt_Some.
  - by rewrite Hid.
  - intros j y Hj Hlt. rewrite list_lookup_insert_ne in Hj by lia. eauto.
Qed.

(** The update on a collection found whose [items] is an array. *)
Lemma update_one_push_found (d : Database) (oid : ObjectId) (i : nat)
    (doc : document) (its : list pyval) (v : pyval) :
  online d = true ->
  list_find (has_id oid) (coll d "collection") = Some (i, doc) ->
  doc !! "items" = Some (VList its) ->
  update_one_push "collection" oid "items" v d
  = inr (set_coll d "collection"
           (<[i := <["items" := VList (its ++ [v])]> doc]> (coll d "collection"))).
Proof.
  intros Hon Hfind Hits. unfold update_one_push, push.
  by rewrite Hon, Hfind, Hits.
Qed.

(** X16: [POST /collections/add-item] either reports success or raises a
    500, never anything else; when it raises, the store is as it was, and
    in no case is an outbound call made or the clock read. *)
Theorem add_item_succeeds_or_raises_500 (body : AddItemBody.t) (w : World) :
  (exists w',
     add_item_to_collection body w = (inr "Item added", w')
     /\ is_Some (db w') /\ sent w' = sent w /\ tick w' = tick w)
  \/ (exists detail,
        add_item_to_collection body w = (inl (HTTPException 500 detail), w)).
Proof.
  destruct (db w) as [d|] eqn:Hdb.
  2:{ right. eexists. by apply add_item_no_handle. }
  destruct (ObjectId_of_str (AddItemBody.collection_id body)) as [e|oid] eqn:Hoid.
  { right. eexists. by eapply add_item_invalid_id. }
  destruct (update_one_push "collection" oid "items" (pushed_item body) d)
    as [e|d'] eqn:Hupd.
  - right. eexists. by eapply add_item_update_raises.
  - left. eexists. split; [by eapply add_item_update_returns|]. by repeat split.
Qed.

(** X17: two items added one after the other to the same collection end
    up at the end of its [items] in the order of the calls; the items that
    were there and the other fields are unchanged. *)
Theorem add_item_twice_keeps_order (a b : AddItemBody.t) (w : World)
    (d : Database) (oid : ObjectId) (i : nat) (doc : document) (its : list pyval) :
  db w = Some d -> online d = true ->
  ObjectId_of_str (AddItemBody.collection_id a) = inr oid ->
  ObjectId_of_str (AddItemBody.collection_id b) = inr oid ->
  list_find (has_id oid) (coll d "collection") = Some (i, doc) ->
  doc !! "items" = Some (VList its) ->
  exists (w1 w2 : World) (d2 : Database) (doc2 : document),
    add_item_to_collection a w = (inr "Item added", w1)
    /\ add_item_to_collection b w1 = (inr "Item added", w2)
    /\ db w2 = Some d2
    /\ coll d2 "collection" !! i = Some doc2
    /\ doc2 !! "items" = Some (VList (its ++ [pushed_item a; pushed_item b]))
    /\ (forall k, k <> "items" -> doc2 !! k = doc !! k).
Proof.
  intros Hdb Hon Ha Hb Hfind Hits.
  pose proof (update_one_push_found d oid i doc its (pushed_item a) Hon Hfind Hits)
    as Hupd1.
  set (doc1 := <["items" := VList (its ++ [pushed_item a])]> doc) in *.
  set (d1 := set_coll d "collection" (<[i := doc1]> (coll d "collection"))) in *.
  assert (list_find (has_id oid) (coll d1 "collection") = Some (i, doc1)) as Hfind1.
  { subst d1. rewrite coll_set_coll_eq.
    apply list_find_has_id_insert with doc; [done|].
    by apply has_id_insert_ne. }
  assert (doc1 !! "items" = Some (VList (its ++ [pushed_item a]))) as Hits1
    by apply lookup_insert_eq.
  pose proof (update_one_push_found d1 oid i doc1 _ (pushed_item b) Hon Hfind1 Hits1)
    as Hupd2.
  set (doc2 := <["items" := VList ((its ++ [pushed_item a]) ++ [pushed_item b])]> doc1)
    in *.
  set (w1 := MkWorld (Some d1) (sent w) (tick w)).
  exists w1. eexists. eexists. exists doc2.
  split; [by apply add_item_update_returns with d oid|].
  split; [by apply add_item_update_returns with d1 oid|].
  split; [done|].
  apply list_find_Some in Hfind1 as (Hi1 & _ & _).
  split; [|split].
  - rewrite coll_set_coll_eq. apply list_lookup_insert_eq.
    by eapply lookup_lt_Some.
  - subst doc2. rewrite lookup_insert_eq. by rewrite <- app_assoc.
  - intros k Hk. subst doc2 doc1. by rewrite !lookup_insert_ne.
Qed.

End AddItemMore.

(* ===================================================================== *)
(** ** The diagnostic endpoint *)
(* ===================================================================== *)

(** A slice is a prefix of the text; what it leaves out starts at a
    character. *)
Lemma str_take_prefix (n : nat) (s : string) :
  exists rest,
    s = str_take n s ++ rest
    /\ match rest with
       | EmptyString => True
       | String c _ => is_continuation c = false
       end.
Proof.
  revert n. induction s as [|c s IH]; intros n; [by exists ""|].
  cbn [str_take]. destruct (is_continuation c) eqn:Hc.
  - destruct (IH n) as (rest & Hs & Hrest). exists rest.
    split; [|done]. by rewrite str_app_cons, <- Hs.
  - destruct n as [|k].
    + exists (String c s). by rewrite Hc.
    + destruct (IH k) as (rest & Hs & Hrest). exists rest.
      split; [|done]. by rewrite str_app_cons, <- Hs.
Qed.

(** A slice of [n] has [n] characters, or all there are. *)
Lemma str_take_codepoints (n : nat) (s : string) :
  codepoints (str_take n s) = Nat.min n (codepoints s).
Proof.
  revert n. induction s as [|c s IH]; intros n; [by rewrite Nat.min_0_r|].
  cbn [str_take codepoints]. destruct (is_continuation c) eqn:Hc.
  - cbn [codepoints]. by rewrite Hc.
  - destruct n as [|k]; [done|]. cbn [codepoints]. rewrite Hc, IH. lia.
Qed.

Section TestDatabaseFacts.

Context (environ : gmap string string) (db_name : Database -> string)
        (listing : Database -> exn + list string).

(** The report before the two entries read from the environment are
    written. *)
Lemma test_database_eq (w : World) :
  exists report : gmap string pyval,
    test_database environ db_name listing w
    = (inr (<["database_name" :=
               VStr (if getenv_truthy environ "DATABASE_NAME"
                     then "✅ Set" else "❌ Not Set")]>
            (<["database_url" :=
                VStr (if getenv_truthy environ "DATABASE_URL"
                      then "✅ Set" else "❌ Not Set")]> report)), w)
    /\ dom report = {[ "backend"; "database"; "database_url"; "database_name";
                       "connection_status"; "collections" ]}
    /\ report !! "backend" = Some (VStr "✅ Running")
    /\ match db w with
       | None =>
           report !! "connection_status" = Some (VStr "Not Connected")
           /\ report !! "collections" = Some (VList [])
           /\ report !! "database" = Some (VStr "⚠️  Available but not initialized")
       | Some d =>
           report !! "connection_status" = Some (VStr "Connected")
           /\ match listing d with
              | inr names =>
                  report !! "collections" = Some (VList (VStr <$> take 10 names))
                  /\ report !! "database" = Some (VStr "✅ Connected & Working")
              | inl e =>
                  report !! "collections" = Some (VList [])
                  /\ report !! "database"
                     = Some (VStr ("⚠️  Connected but Error: "
                                   ++ str_take 50 (exn_str e)))
              end
       end.
Proof.
  unfold test_database, bind, try_except, get_db, lift_exn, ret, raise.
  destruct w as [[d|] sw tw]; simpl.
  - destruct (listing d) as [e|names]; simpl;
      (eexists; split; [done|]; split;
       [rewrite !dom_insert_L, dom_empty_L; set_solver|by simplify_map_eq]).
  - eexists; split; [done|]; split;
      [rewrite !dom_insert_L, dom_empty_L; set_solver|by simplify_map_eq].
Qed.

(** X18: [GET /test] never fails and changes nothing; its report always
    has the same six entries, and [backend] always says running. *)
Theorem test_database_never_raises (w : World) :
  exists report : gmap string pyval,
    test_database environ db_name listing w = (inr report, w)
    /\ dom report = {[ "backend"; "database"; "database_url"; "database_name";
                       "connection_status"; "collections" ]}
    /\ report !! "backend" = Some (VStr "✅ Running").
Proof.
  destruct (test_database_eq w) as (report & Hrun & Hdom & Hbackend & _).
  eexists. split; [done|]. split.
  - rewrite !dom_insert_L, Hdom. set_solver.
  - by rewrite !lookup_insert_ne.
Qed.

(** X19: the [database_url] and [database_name] entries of the report
    depend on the environment alone: each says "Set" when its variable is
    set to a non-empty text and "Not Set" otherwise, whatever the state
    of the store; what the store branch wrote there is overwritten. *)
Theorem test_database_reports_environment (w : World) :
  exists report : gmap string pyval,
    (test_database environ db_name listing w).1 = inr report
    /\ report !! "database_url"
       = Some (VStr (if getenv_truthy environ "DATABASE_URL"
                     then "✅ Set" else "❌ Not Set"))
    /\ report !! "database_name"
       = Some (VStr (if getenv_truthy environ "DATABASE_NAME"
                     then "✅ Set" else "❌ Not Set")).
Proof.
  destruct (test_database_eq w) as (report & Hrun & _).
  eexists. rewrite Hrun. split; [done|]. by simplify_map_eq.
Qed.

(** X20: the report says "Connected" as soon as there is a store handle,
    also when the store does not answer; it lists at most ten collection
    names, the first ten the store gives, and none when there is no handle
    or the listing fails, in which case [database] carries the first fifty
    characters of the error's text: a prefix of it that has fifty
    characters, or all of them when the text is shorter, and that does
    not cut a character. *)
Theorem test_database_reports_store (w : World) :
  exists report : gmap string pyval,
    (test_database environ db_name listing w).1 = inr report
    /\ match db w with
       | None =>
           report !! "connection_status" = Some (VStr "Not Connected")
           /\ report !! "collections" = Some (VList [])
           /\ report !! "database" = Some (VStr "⚠️  Available but not initialized")
       | Some d =>
           report !! "connection_status" = Some (VStr "Connected")
           /\ match listing d with
              | inr names =>
                  report !! "collections" = Some (VList (VStr <$> take 10 names))
                  /\ (length (VStr <$> take 10 names) <= 10)%nat
                  /\ report !! "database" = Some (VStr "✅ Connected & Working")
              | inl e =>
                  report !! "collections" = Some (VList [])
                  /\ exists shown rest,
                       report !! "database"
                       = Some (VStr ("⚠️  Connected but Error: " ++ shown))
                       /\ exn_str e = shown ++ rest
                       /\ codepoints shown = Nat.min 50 (codepoints (exn_str e))
                       /\ match rest with
                          | EmptyString => True
                          | String c _ => is_continuation c = false
                          end
              end
       end.
Proof.
  destruct (test_database_eq w) as (report & Hrun & _ & _ & Hstore).
  eexists. rewrite Hrun. split; [done|].
  rewrite !lookup_insert_ne by done.
  destruct (db w) as [d|]; [|done].
  destruct Hstore as [Hconn Hstore]. split; [done|].
  destruct (listing d) as [e|names].
  - destruct Hstore as [Hcoll Hdb]. split; [done|].
    destruct (str_take_prefix 50 (exn_str e)) as (rest & Hs & Hrest).
    exists (str_take 50 (exn_str e)), rest.
    by rewrite str_take_codepoints.
  - destruct Hstore as [Hcoll Hdb]. repeat split; [done| |done].
    rewrite length_fmap, length_take. lia.
Qed.

End TestDatabaseFacts.

(* ===================================================================== *)
(** ** Instances of the statements above *)
(* ===================================================================== *)

Lemma proxy_answer_ignores_save_witness :
  (@proxy_request (env_answering resp_object) example_runtime SpecHelpers
     ping world0).1
  = (@proxy_request (env_answering resp_object) example_runtime SpecHelpers
       ping_nosave world_offline).1.
Proof.
  apply (@proxy_answer_ignores_save_and_store (env_answering resp_object)
           example_runtime SpecHelpers SpecHelpers ping ping_nosave
           world0 world_offline); reflexivity.
Defined.

Lemma proxy_returns_status_headers_body_witness :
  exists r,
    (@proxy_request (env_answering resp_text) example_runtime SpecHelpers
       ping world0).1 = inr r
    /\ ProxyResult.status r = Response.status_code resp_text
    /\ 0 <= ProxyResult.time_ms r
    /\ ProxyResult.headers r = Response.headers resp_text
    /\ ProxyResult.body r
       = match Response.json resp_text with
         | Some j => j
         | None => VStr (Response.text resp_text)
         end.
Proof.
  apply (@proxy_returns_status_headers_body (env_answering resp_text)
           example_runtime SpecHelpers ping world0 resp_text).
  - reflexivity.
  - apply Qle_bool_iff. reflexivity.
  - left. reflexivity.
Defined.

Lemma proxy_record_matches_result_witness :
  exists rec,
    history (db (@proxy_request (env_answering resp_object) example_runtime
                   SpecHelpers ping world0).2)
    = (history (db world0) ++ [rec])%list
    /\ rec !! "response_time_ms" = Some (VInt 250)
    /\ rec !! "response_headers" = Some (dump_str_dict json_headers)
    /\ rec !! "response_body" = Some (VDict ∅)
    /\ rec !! "_id" = Some (VObjectId (fresh_id 0)).
Proof.
  apply (@proxy_record_matches_result (env_answering resp_object) example_runtime
           ping world0 empty_store
           (ProxyResult.Make 200 250 json_headers (VDict ∅)));
    reflexivity.
Defined.

Lemma create_then_get_collections_witness :
  exists id w' c,
    @create_collection SpecHelpers smoke_tests world0
    = (inr (id, "Collection created"), w')
    /\ (@get_collections example_runtime SpecHelpers w').1
       = inr ((@get_collections_normalize example_runtime
                 <$> coll empty_store "collection") ++ [c])%list
    /\ c !! "name" = Some (VStr "Smoke Tests")
    /\ c !! "description" = Some (dump_opt VStr None)
    /\ c !! "items" = Some (VList [])
    /\ c !! "_id" = Some (VStr id).
Proof.
  apply (@create_then_get_collections_lists_it example_runtime smoke_tests
           world0 empty_store); reflexivity.
Defined.

Lemma add_item_twice_witness :
  exists (w1 w2 : World) (d2 : Database) (doc2 : document),
    @add_item_to_collection example_runtime add_ping world_smoke = (inr "Item added", w1)
    /\ @add_item_to_collection example_runtime add_pong w1 = (inr "Item added", w2)
    /\ db w2 = Some d2
    /\ coll d2 "collection" !! 0%nat = Some doc2
    /\ doc2 !! "items" = Some (VList ([] ++ [pushed_item add_ping; pushed_item add_pong]))
    /\ (forall k, k <> "items" -> doc2 !! k = smoke_doc !! k).
Proof.
  apply (@add_item_twice_keeps_order example_runtime add_ping add_pong world_smoke smoke_store
           (fresh_id 0) 0%nat smoke_doc []); reflexivity.
Defined.

(** The diagnostic report when the listing fails: "Connected" all the
    same, and the first fifty characters of the error, two-byte
    characters counted once. *)
Example test_database_listing_fails :
  exists report,
    (test_database ∅ (fun _ => "apitest") failing_listing world0).1 = inr report
    /\ report !! "connection_status" = Some (VStr "Connected")
    /\ report !! "collections" = Some (VList [])
    /\ report !! "database"
       = Some (VStr "⚠️  Connected but Error: Zeitüberschreitung bei der Verbindung zum Datenban")
    /\ report !! "database_url" = Some (VStr "❌ Not Set").
Proof. eexists. repeat split. Qed.

(** The diagnostic report of a store that answers. *)
Example test_database_working :
  exists report,
    (test_database {[ "DATABASE_URL" := "mongodb://db" ]} (fun _ => "apitest")
       list_collection_names world_three).1 = inr report
    /\ report !! "database" = Some (VStr "✅ Connected & Working")
    /\ report !! "collections" = Some (VList [VStr "requesthistory"])
    /\ report !! "database_url" = Some (VStr "✅ Set")
    /\ report !! "database_name" = Some (VStr "❌ Not Set").
Proof. eexists. repeat split. Qed.

(** The texts of a timestamp with and without microseconds, and of an
    identifier. *)
Example isoformat_texts :
  isoformat (Datetime 2024 11 25 13 14 15 1200) = "2024-11-25T13:14:15.001200"
  /\ isoformat (Datetime 987 1 2 3 4 5 0) = "0987-01-02T03:04:05"
  /\ hexlify [0; 255; 171; 16]%N = "00ffab10".
Proof. repeat split. Qed.
